(** * EduGenius: the request pipeline of [app.py]

    A shallow embedding of the [EduGeniusEngine] methods and of the
    [/generate] handler, with the properties of the request-parsing and
    fallback pipeline.

    Text.  A Python [str] is read as a [string] whose characters are the code
    points 0..255; on that range [isspace] and [lower] below are CPython's
    [str.isspace] and [str.lower].

    Effects.  The language model, the encyclopedia client, [json.loads], the
    request body and the clock are parameters of the engine.  A computation
    threads the log of the calls it makes and either returns or raises; the
    message carried by [Raises] is what [str(e)] gives in the handlers. *)

From Stdlib Require Import String Ascii List Bool Arith ZArith Lia.

#[global] Set Warnings "-register-all".
#[global] Set Warnings "-automation".
Import ListNotations.
Open Scope string_scope.

(** ** Python string operations *)

Module PyStr.

(** [str.isspace] on one character: TAB..CR, FS..US, SPACE, NEL, NBSP. *)
Definition isspace (c : ascii) : bool :=
  let n := nat_of_ascii c in
  (((9 <=? n) && (n <=? 13)) || ((28 <=? n) && (n <=? 32))
   || (n =? 133) || (n =? 160))%nat.

Definition is_upper (c : ascii) : bool :=
  let n := nat_of_ascii c in
  (((65 <=? n) && (n <=? 90))
   || ((192 <=? n) && (n <=? 222) && negb (n =? 215)))%nat.

Definition lower_char (c : ascii) : ascii :=
  if is_upper c then ascii_of_nat (nat_of_ascii c + 32) else c.

(** [s.lower()] *)
Fixpoint lower (s : string) : string :=
  match s with
  | EmptyString => EmptyString
  | String c s' => String (lower_char c) (lower s')
  end.

Fixpoint lstrip (s : string) : string :=
  match s with
  | EmptyString => EmptyString
  | String c s' => if isspace c then lstrip s' else s
  end.

Fixpoint rstrip (s : string) : string :=
  match s with
  | EmptyString => EmptyString
  | String c s' =>
      match rstrip s' with
      | EmptyString => if isspace c then EmptyString else String c EmptyString
      | r => String c r
      end
  end.

(** [s.strip()] *)
Definition strip (s : string) : string := lstrip (rstrip s).

(** Every character of [s] is white space (true of the empty string). *)
Fixpoint all_space (s : string) : bool :=
  match s with
  | EmptyString => true
  | String c s' => isspace c && all_space s'
  end.

Definition is_empty (s : string) : bool :=
  match s with EmptyString => true | _ => false end.

(** [s.split()]: the maximal runs of non-space characters, in order.
    [cur] is the run being read. *)
Fixpoint split_from (cur s : string) : list string :=
  match s with
  | EmptyString => if is_empty cur then [] else [cur]
  | String c s' =>
      if isspace c
      then (if is_empty cur then split_from EmptyString s'
            else cur :: split_from EmptyString s')
      else split_from (cur ++ String c EmptyString) s'
  end.

Definition split (s : string) : list string := split_from EmptyString s.

(** [sub in s] *)
Fixpoint contains (sub s : string) : bool :=
  prefix sub s
  || match s with
     | EmptyString => false
     | String _ s' => contains sub s'
     end.

(** [s.replace(old, new)] for a non-empty [old]: occurrences are taken
    from the left and do not overlap.  [skip] counts the characters of
    the occurrence just replaced that are still to be dropped. *)
Fixpoint replace_from (old new : string) (skip : nat) (s : string) : string :=
  match s with
  | EmptyString => EmptyString
  | String c s' =>
      match skip with
      | S k => replace_from old new k s'
      | O =>
          if prefix old s
          then new ++ replace_from old new (String.length old - 1) s'
          else String c (replace_from old new 0 s')
      end
  end.

(** For the empty pattern Python puts [new] around every character. *)
Fixpoint intersperse (new s : string) : string :=
  match s with
  | EmptyString => new
  | String c s' => new ++ String c (intersperse new s')
  end.

Definition replace (old new s : string) : string :=
  if is_empty old then intersperse new s else replace_from old new 0 s.

(** [s[:n]] *)
Fixpoint take (n : nat) (s : string) : string :=
  match n, s with
  | S k, String c s' => String c (take k s')
  | _, _ => EmptyString
  end.

Definition is_ascii_lower (c : ascii) : bool :=
  let n := nat_of_ascii c in ((97 <=? n) && (n <=? 122))%nat.

Definition is_ascii_upper (c : ascii) : bool :=
  let n := nat_of_ascii c in ((65 <=? n) && (n <=? 90))%nat.

(** [s.title()], for the cased characters of ASCII, which is what the
    keys it is applied to are made of: a letter that follows a letter is
    lower-cased, any other letter is upper-cased. *)
Fixpoint title_from (prev_cased : bool) (s : string) : string :=
  match s with
  | EmptyString => EmptyString
  | String c s' =>
      if is_ascii_lower c || is_ascii_upper c
      then String (if prev_cased
                   then lower_char c
                   else if is_ascii_lower c
                        then ascii_of_nat (nat_of_ascii c - 32) else c)
                  (title_from true s')
      else String c (title_from false s')
  end.

Definition title (s : string) : string := title_from false s.

End PyStr.

(** ** Python values, as [json.loads] and the request body produce them *)

Inductive value : Type :=
| VNone
| VBool (b : bool)
| VInt (z : Z)
| VFloat (repr : string)
| VStr (s : string)
| VList (l : list value)
| VDict (d : list (string * value)).

Definition dict : Type := list (string * value).

Fixpoint dict_lookup (k : string) (d : dict) : option value :=
  match d with
  | [] => None
  | (k', v) :: rest => if String.eqb k k' then Some v else dict_lookup k rest
  end.

(** ** The Domain Classifier: [fallback_parse] *)

Definition common_domains : list (string * list string) :=
  [ ("computer science",
      ["programming"; "algorithm"; "data structure"; "system"; "software"]);
    ("biology", ["cell"; "organism"; "dna"; "protein"; "evolution"]);
    ("physics", ["quantum"; "energy"; "force"; "particle"; "wave"]);
    ("chemistry", ["molecule"; "atom"; "reaction"; "compound"; "element"]);
    ("mathematics", ["equation"; "theorem"; "calculus"; "algebra"; "geometry"]) ].

(** The [for domain, keywords in common_domains.items()] loop with its
    [break]; [identified_domain] starts as "General". *)
Fixpoint identify_domain (domains : list (string * list string))
         (prompt_lower : string) : string :=
  match domains with
  | [] => "General"
  | (domain, keywords) :: rest =>
      if existsb (fun keyword => PyStr.contains keyword prompt_lower) keywords
      then PyStr.title domain
      else identify_domain rest prompt_lower
  end.

(** [user_prompt.replace("teach me about", "").replace("learn about", "")] *)
Definition without_fillers (user_prompt : string) : string :=
  PyStr.replace "learn about" ""
    (PyStr.replace "teach me about" "" user_prompt).

Definition main_topic_of (user_prompt : string) : string :=
  PyStr.strip (without_fillers user_prompt).

Definition keywords_of (user_prompt : string) : list string :=
  firstn 5 (PyStr.split (PyStr.lower user_prompt)).

Definition fallback_parse (user_prompt : string) : dict :=
  let prompt_lower := PyStr.lower user_prompt in
  let identified_domain := identify_domain common_domains prompt_lower in
  [ ("main_topic", VStr (main_topic_of user_prompt));
    ("subject_domain", VStr identified_domain);
    ("specific_focus", VStr user_prompt);
    ("learning_intent", VStr "comprehensive understanding");
    ("complexity_level", VStr "intermediate");
    ("keywords", VList (map VStr (keywords_of user_prompt))) ].

Example fallback_black_holes :
  fallback_parse "teach me about black holes"
  = [ ("main_topic", VStr "black holes");
      ("subject_domain", VStr "General");
      ("specific_focus", VStr "teach me about black holes");
      ("learning_intent", VStr "comprehensive understanding");
      ("complexity_level", VStr "intermediate");
      ("keywords", VList [VStr "teach"; VStr "me"; VStr "about";
                          VStr "black"; VStr "holes"]) ].
Proof. reflexivity. Qed.

Example fallback_domain_order :
  dict_lookup "subject_domain"
    (fallback_parse "Explain the CELL as a System")
  = Some (VStr "Computer Science").
Proof. reflexivity. Qed.

(** ** Regular-expression search for the JSON text

    [re.search(r'\{.*\}', text, re.DOTALL)]: the leftmost match starts at the
    first opening brace that has a closing brace after it, and the greedy
    [.*] carries it to the last closing brace of the text. *)

Definition open_brace : ascii := "{"%char.
Definition close_brace : ascii := "}"%char.

(** The text up to and including its last closing brace, if it has one. *)
Fixpoint upto_last_close (s : string) : option string :=
  match s with
  | EmptyString => None
  | String c s' =>
      match upto_last_close s' with
      | Some r => Some (String c r)
      | None =>
          if Ascii.eqb c close_brace then Some (String c EmptyString) else None
      end
  end.

(** [json_match.group()], or [None] when the pattern matches nowhere. *)
Fixpoint re_search_braces (s : string) : option string :=
  match s with
  | EmptyString => None
  | String c s' =>
      if Ascii.eqb c open_brace
      then match upto_last_close s' with
           | Some r => Some (String c r)
           | None => None
           end
      else re_search_braces s'
  end.

Example re_search_greedy :
  re_search_braces "ok {a} and {b} end" = Some "{a} and {b}".
Proof. reflexivity. Qed.

Example re_search_unclosed : re_search_braces "} then {" = None.
Proof. reflexivity. Qed.

(** ** Computations: a call log, and exceptions *)

(** What a call gives back: a value, or an exception [e] known by [str(e)]. *)
Inductive outcome (A : Type) : Type :=
| Returns (a : A)
| Raises (msg : string).
Arguments Returns {A} a.
Arguments Raises {A} msg.

(** The calls a request makes, in the order it makes them. *)
Inductive event : Type :=
| LlmGenerate (prompt : string)      (* self.model.generate_content(prompt) *)
| WikiPage (term : value)            (* self.wiki.page(term) *)
| CallFallback (user_prompt : string)(* self.fallback_parse(user_prompt) *)
| CallSynthesizer.                   (* generate_comprehensive_study_material *)

Definition log : Type := list event.

Definition M (A : Type) : Type := log -> outcome A * log.

Definition ret {A} (a : A) : M A := fun l => (Returns a, l).

Definition raise {A} (msg : string) : M A := fun l => (Raises msg, l).

Definition bind {A B} (m : M A) (k : A -> M B) : M B :=
  fun l =>
    match m l with
    | (Returns a, l') => k a l'
    | (Raises msg, l') => (Raises msg, l')
    end.

(** [try: m  except Exception as e: h (str(e))] *)
Definition try_except {A} (m : M A) (h : string -> M A) : M A :=
  fun l =>
    match m l with
    | (Returns a, l') => (Returns a, l')
    | (Raises msg, l') => h msg l'
    end.

Definition emit (e : event) : M unit := fun l => (Returns tt, (l ++ [e])%list).

Definition lift {A} (o : outcome A) : M A := fun l => (o, l).

Definition run {A} (m : M A) : outcome A * log := m [].

Declare Scope py_scope.
Delimit Scope py_scope with py.
Notation "x <- m ;; k" := (bind m (fun x => k))
  (at level 61, m at next level, right associativity) : py_scope.
Notation "m ;;; k" := (bind m (fun _ => k))
  (at level 61, right associativity) : py_scope.
Open Scope py_scope.

(** ** Type names and the interpreter's own exceptions *)

Definition type_name (v : value) : string :=
  match v with
  | VNone => "NoneType"
  | VBool _ => "bool"
  | VInt _ => "int"
  | VFloat _ => "float"
  | VStr _ => "str"
  | VList _ => "list"
  | VDict _ => "dict"
  end.

Definition squote (s : string) : string := "'" ++ s ++ "'".

Definition no_attribute (v : value) (attr : string) : string :=
  squote (type_name v) ++ " object has no attribute " ++ squote attr.

Definition not_subscriptable (tn : string) : string :=
  squote tn ++ " object is not subscriptable".

(** [str(KeyError(k))] is the repr of the key. *)
Definition key_error (k : string) : string := squote k.

(** [d[k]] on a dict *)
Definition subscript (d : dict) (k : string) : M value :=
  match dict_lookup k d with
  | Some v => ret v
  | None => raise (key_error k)
  end.

(** [parsed_info[k]] where [parsed_info] is a dict or [None] *)
Definition subscript_opt (d : option dict) (k : string) : M value :=
  match d with
  | Some d => subscript d k
  | None => raise (not_subscriptable "NoneType")
  end.

(** [data.get(k, default)] *)
Definition get_with_default (data : value) (k : string) (default : value)
  : M value :=
  match data with
  | VDict d =>
      match dict_lookup k d with
      | Some v => ret v
      | None => ret default
      end
  | _ => raise (no_attribute data "get")
  end.

(** [v.strip()] *)
Definition strip_method (v : value) : M string :=
  match v with
  | VStr s => ret (PyStr.strip s)
  | _ => raise (no_attribute v "strip")
  end.

(** [keywords[:3]].  A dict rejects the slice as a key ("unhashable type"
    before Python 3.12, a [KeyError] from 3.12 on); in both cases the
    statement raises. *)
Definition slice3 (v : value) : M value :=
  match v with
  | VList l => ret (VList (firstn 3 l))
  | VStr s => ret (VStr (PyStr.take 3 s))
  | VDict _ => raise "unhashable type: 'slice'"
  | _ => raise (not_subscriptable (type_name v))
  end.

Definition dquote : string := String (ascii_of_nat 34) EmptyString.

(** [[x] + v] *)
Definition list_plus (x : value) (v : value) : M (list value) :=
  match v with
  | VList l => ret (x :: l)
  | _ => raise ("can only concatenate list (not " ++ dquote
                ++ type_name v ++ dquote ++ ") to list")
  end.

(** ** The engine and the request handler *)

(** A response of the language model; reading [response.text] may raise. *)
Record llm_response : Type := { text : outcome string }.

(** A page object of the encyclopedia client; each attribute is fetched
    on demand and may raise. *)
Record wiki_page : Type :=
  { page_exists : outcome bool;
    page_summary : outcome string;
    page_title : outcome string;
    page_fullurl : outcome string }.

(** The dict appended to [contexts]. *)
Record context : Type :=
  { title : string; content : string; url : string }.

(** The JSON body the handler answers with. *)
Inductive envelope : Type :=
| Failure (error : string)
| Success (study_material : option string) (parsed_info : option dict)
          (sources : list string) (generated_at : string).

(** [if err:] on an error slot that holds [None] or a message *)
Definition error_of (err : option string) : option string :=
  match err with
  | Some msg => if PyStr.is_empty msg then None else Some msg
  | None => None
  end.

Section Engine.

(** The two prompt templates; their text only travels to the model. *)
Variable parsing_prompt : string -> string.
Variable study_prompt :
  string -> value -> value -> value -> value -> list context -> string.

(** [self.model.generate_content], [self.wiki.page], [json.loads] and
    [datetime.now().isoformat()]. *)
Variable generate_content : string -> outcome llm_response.
Variable wiki : value -> outcome wiki_page.
Variable json_loads : string -> outcome dict.
Variable now_isoformat : string.

Definition parse_learning_request (user_prompt : string)
  : M (option dict * option string) :=
  try_except
    (emit (LlmGenerate (parsing_prompt user_prompt)) ;;;
     response <- lift (generate_content (parsing_prompt user_prompt)) ;;
     response_text <- lift (text response) ;;
     match re_search_braces response_text with
     | Some group =>
         parsed_info <- lift (json_loads group) ;;
         ret (Some parsed_info, None)
     | None =>
         emit (CallFallback user_prompt) ;;;
         ret (Some (fallback_parse user_prompt), None)
     end)
    (fun e => ret (None, Some ("Error parsing request: " ++ e))).

(** The summary as stored: cut to 1500 characters and marked when longer. *)
Definition limit_summary (summary : string) : string :=
  if (1500 <? String.length summary)%nat
  then PyStr.take 1500 summary ++ "..."
  else summary.

(** [summary and len(summary.strip()) > 100] *)
Definition usable_summary (summary : string) : bool :=
  negb (PyStr.is_empty summary)
  && (100 <? String.length (PyStr.strip summary))%nat.

(** The [for term in search_terms] loop, [contexts] being the list built
    so far. *)
Fixpoint fetch_loop (search_terms : list value) (contexts : list context)
  : M (list context) :=
  match search_terms with
  | [] => ret contexts
  | term :: rest =>
      if (2 <=? List.length contexts)%nat then ret contexts
      else
        emit (WikiPage term) ;;;
        page <- lift (wiki term) ;;
        found <- lift (page_exists page) ;;
        if (found : bool) then
          summary <- lift (page_summary page) ;;
          if usable_summary summary then
            t <- lift (page_title page) ;;
            u <- lift (page_fullurl page) ;;
            fetch_loop rest
              (contexts ++ [ {| title := t;
                                content := limit_summary summary;
                                url := u |} ])%list
          else fetch_loop rest contexts
        else fetch_loop rest contexts
  end.

Definition fetch_wikipedia_context (keywords main_topic : value)
  : M (option (list context) * option string) :=
  try_except
    (first3 <- slice3 keywords ;;
     search_terms <- list_plus main_topic first3 ;;
     contexts <- fetch_loop search_terms [] ;;
     match contexts with
     | [] => ret (None, Some "No relevant Wikipedia content found")
     | _ => ret (Some contexts, None)
     end)
    (fun e => ret (None, Some ("Error fetching Wikipedia data: " ++ e))).

(** A slot that holds the list of contexts or [None], when iterated. *)
Definition iterate (wikipedia_contexts : option (list context))
  : M (list context) :=
  match wikipedia_contexts with
  | Some contexts => ret contexts
  | None => raise "'NoneType' object is not iterable"
  end.

Definition generate_comprehensive_study_material
           (parsed_info : option dict)
           (wikipedia_contexts : option (list context))
           (original_prompt : string) : M (option string * option string) :=
  emit CallSynthesizer ;;;
  try_except
    (contexts <- iterate wikipedia_contexts ;;
     main_topic <- subscript_opt parsed_info "main_topic" ;;
     subject_domain <- subscript_opt parsed_info "subject_domain" ;;
     specific_focus <- subscript_opt parsed_info "specific_focus" ;;
     complexity_level <- subscript_opt parsed_info "complexity_level" ;;
     let prompt :=
       study_prompt original_prompt main_topic subject_domain
                    specific_focus complexity_level contexts in
     emit (LlmGenerate prompt) ;;;
     response <- lift (generate_content prompt) ;;
     response_text <- lift (text response) ;;
     if PyStr.is_empty response_text
     then ret (None, Some "Failed to generate study material")
     else ret (Some response_text, None))
    (fun e => ret (None, Some ("Error generating study material: " ++ e))).

(** The [/generate] route; [get_json] is what [request.get_json()] does. *)
Definition generate_study_material (get_json : outcome value) : M envelope :=
  try_except
    (data <- lift get_json ;;
     prompt <- get_with_default data "prompt" (VStr "") ;;
     user_prompt <- strip_method prompt ;;
     if PyStr.is_empty user_prompt
     then ret (Failure "Please provide a learning prompt")
     else
       parsed <- parse_learning_request user_prompt ;;
       match error_of (snd parsed) with
       | Some parse_error => ret (Failure parse_error)
       | None =>
           let parsed_info := fst parsed in
           keywords <- subscript_opt parsed_info "keywords" ;;
           main_topic <- subscript_opt parsed_info "main_topic" ;;
           fetched <- fetch_wikipedia_context keywords main_topic ;;
           match error_of (snd fetched) with
           | Some wiki_error => ret (Failure wiki_error)
           | None =>
               let wikipedia_contexts := fst fetched in
               generated <-
                 generate_comprehensive_study_material
                   parsed_info wikipedia_contexts user_prompt ;;
               match error_of (snd generated) with
               | Some content_error => ret (Failure content_error)
               | None =>
                   contexts <- iterate wikipedia_contexts ;;
                   ret (Success (fst generated) parsed_info
                                (map title contexts) now_isoformat)
               end
           end
       end)
    (fun e => ret (Failure ("Server error: " ++ e))).

End Engine.

(** ** Properties the pipeline is checked against *)

(** The names the classifier can report: the keys in title case, and the
    default. *)
Definition domain_names : list string :=
  (map (fun entry => PyStr.title (fst entry)) common_domains ++ ["General"])%list.

Example domain_names_listed :
  domain_names
  = ["Computer Science"; "Biology"; "Physics"; "Chemistry"; "Mathematics";
     "General"].
Proof. reflexivity. Qed.

(** [sub] occurs in [s] as a substring. *)
Definition occurs_in (sub s : string) : Prop :=
  exists pre post, s = pre ++ sub ++ post.

(** An entry of the mapping is triggered when one of its keywords occurs. *)
Definition triggered (lowered : string) (entry : string * list string) : Prop :=
  exists keyword, In keyword (snd entry) /\ occurs_in keyword lowered.

(** The rule of the classifier in words: the first triggered entry of the
    mapping gives the domain, and "General" is reported when none is. *)
Inductive first_triggered (lowered : string)
  : list (string * list string) -> string -> Prop :=
| none_triggered domains :
    Forall (fun entry => ~ triggered lowered entry) domains ->
    first_triggered lowered domains "General"
| entry_triggered earlier entry later :
    Forall (fun e => ~ triggered lowered e) earlier ->
    triggered lowered entry ->
    first_triggered lowered (earlier ++ entry :: later)%list
                    (PyStr.title (fst entry)).

(** The record promised for every non-empty text: a topic that is not
    empty, a listed domain and at most five keywords. *)
Definition fallback_record_complete (user_prompt : string) : Prop :=
  user_prompt <> "" ->
  exists topic domain keywords,
    dict_lookup "main_topic" (fallback_parse user_prompt) = Some (VStr topic)
    /\ topic <> ""
    /\ dict_lookup "subject_domain" (fallback_parse user_prompt)
       = Some (VStr domain)
    /\ In domain domain_names
    /\ dict_lookup "keywords" (fallback_parse user_prompt)
       = Some (VList (map VStr keywords))
    /\ List.length keywords <= 5.

(** The text holds a brace-delimited part: an opening brace with a closing
    brace somewhere after it. *)
Definition has_braced_part (s : string) : Prop :=
  exists pre mid post, s = pre ++ "{" ++ mid ++ "}" ++ post.

(** The terms queried, read off a log. *)
Fixpoint queried (l : log) : list value :=
  match l with
  | [] => []
  | WikiPage term :: l' => term :: queried l'
  | _ :: l' => queried l'
  end.

(** The sequence [[main_topic] + keywords[:3]], empty when that expression
    raises. *)
Definition search_terms_of (keywords main_topic : value) : list value :=
  match keywords with
  | VList l => main_topic :: firstn 3 l
  | _ => []
  end.

Definition is_synthesizer_call (e : event) : bool :=
  match e with CallSynthesizer => true | _ => false end.

Definition is_fallback_call (e : event) : bool :=
  match e with CallFallback _ => true | _ => false end.

Section Accepted.

Variable wiki : value -> outcome wiki_page.

(** What one term adds to [contexts] when its lookup raises nothing: the
    context built from its page, or nothing. *)
Definition contexts_for (term : value) : list context :=
  match wiki term with
  | Returns page =>
      match page_exists page, page_summary page,
            page_title page, page_fullurl page with
      | Returns true, Returns summary, Returns t, Returns u =>
          if usable_summary summary
          then [ {| title := t; content := limit_summary summary; url := u |} ]
          else []
      | _, _, _, _ => []
      end
  | Raises _ => []
  end.

End Accepted.

(** The bound promised for stored content: no accepted context holds more
    than 1500 characters. *)
Definition content_within_1500 (wiki : value -> outcome wiki_page)
           (keywords main_topic : value) : Prop :=
  forall contexts err l ctx,
    run (fetch_wikipedia_context wiki keywords main_topic)
    = (Returns (Some contexts, err), l) ->
    In ctx contexts ->
    String.length (content ctx) <= 1500.

(** ** Stand-ins for the outside world, for running the pipeline *)

Module Mock.

Fixpoint replicate (n : nat) (c : ascii) : string :=
  match n with
  | O => EmptyString
  | S k => String c (replicate k c)
  end.

Definition parsing_prompt (user_prompt : string) : string :=
  "Analyze this learning request: " ++ user_prompt.

Definition study_prompt (original_prompt : string)
           (main_topic subject_domain specific_focus complexity_level : value)
           (contexts : list context) : string :=
  "Create a study guide for: " ++ original_prompt.

(** A model that answers every prompt with the same text. *)
Definition llm_says (answer : string) (prompt : string)
  : outcome llm_response :=
  Returns {| text := Returns answer |}.

(** A model that cannot be reached. *)
Definition llm_down (prompt : string) : outcome llm_response :=
  Raises "503 Service Unavailable".

Definition mitosis_info : dict :=
  [ ("main_topic", VStr "mitosis");
    ("subject_domain", VStr "Biology");
    ("specific_focus", VStr "cell division");
    ("learning_intent", VStr "learn");
    ("complexity_level", VStr "beginner");
    ("keywords", VList [VStr "mitosis"; VStr "cell cycle"]) ].

(** [json.loads] on the two texts the runs below hand to it. *)
Definition json_loads (s : string) : outcome dict :=
  if String.eqb s "{}" then Returns []
  else if String.eqb s "{mitosis}" then Returns mitosis_info
  else Raises "Expecting property name enclosed in double quotes".

Definition page_with (name : value) (summary : string) : wiki_page :=
  {| page_exists := Returns true;
     page_summary := Returns summary;
     page_title := Returns (match name with VStr s => s | _ => "" end);
     page_fullurl := Returns "https://en.wikipedia.org/wiki/Page" |}.

(** Every title has a page whose summary is [n] letters long. *)
Definition wiki_sized (n : nat) (term : value) : outcome wiki_page :=
  Returns (page_with term (replicate n "a"%char)).

(** No title has a page. *)
Definition wiki_empty (term : value) : outcome wiki_page :=
  Returns {| page_exists := Returns false;
             page_summary := Returns "";
             page_title := Returns "";
             page_fullurl := Returns "" |}.

Definition body_with_prompt (prompt : string) : outcome value :=
  Returns (VDict [("prompt", VStr prompt)]).

(** The context built from a summary of 1501 letters. *)
Definition long_context : context :=
  {| title := "Mitosis";
     content := replicate 1500 "a"%char ++ "...";
     url := "https://en.wikipedia.org/wiki/Page" |}.

End Mock.

Example end_to_end_mitosis :
  fst (run (generate_study_material
              Mock.parsing_prompt Mock.study_prompt
              (Mock.llm_says "Sure. {mitosis}") (Mock.wiki_sized 120)
              Mock.json_loads "2025-01-01T00:00:00"
              (Mock.body_with_prompt "learn about mitosis")))
  = Returns (Success (Some "Sure. {mitosis}") (Some Mock.mitosis_info)
                     ["mitosis"; "mitosis"] "2025-01-01T00:00:00").
Proof. vm_compute. reflexivity. Qed.

(** ** Facts about the string operations *)

Lemma append_empty_r (s : string) : s ++ "" = s.
Proof. induction s as [|c s IH]; simpl; [reflexivity | now rewrite IH]. Qed.

Lemma append_assoc (a b c : string) : (a ++ b) ++ c = a ++ b ++ c.
Proof. induction a as [|x a IH]; simpl; [reflexivity | now rewrite IH]. Qed.

Lemma length_append (a b : string) :
  String.length (a ++ b) = String.length a + String.length b.
Proof. induction a as [|x a IH]; simpl; [reflexivity | now rewrite IH]. Qed.

Lemma is_empty_true (s : string) : PyStr.is_empty s = true <-> s = "".
Proof. destruct s; simpl; split; congruence. Qed.

Lemma is_empty_false (s : string) : PyStr.is_empty s = false <-> s <> "".
Proof. destruct s; simpl; split; congruence. Qed.

Lemma rstrip_empty (s : string) :
  PyStr.rstrip s = "" <-> PyStr.all_space s = true.
Proof.
  induction s as [|c s IH]; simpl.
  - tauto.
  - destruct (PyStr.rstrip s) eqn:R.
    + destruct (PyStr.isspace c); simpl.
      * split; intros _; [now apply IH | reflexivity].
      * split; discriminate.
    + split; [discriminate|].
      intros H. apply andb_true_iff in H as [_ H].
      apply IH in H. discriminate.
Qed.

Lemma lstrip_empty (s : string) :
  PyStr.lstrip s = "" <-> PyStr.all_space s = true.
Proof.
  induction s as [|c s IH]; simpl.
  - tauto.
  - destruct (PyStr.isspace c); simpl; [exact IH | split; discriminate].
Qed.

Lemma all_space_rstrip (s : string) :
  PyStr.all_space (PyStr.rstrip s) = PyStr.all_space s.
Proof.
  induction s as [|c s IH]; simpl; [reflexivity|].
  destruct (PyStr.rstrip s) eqn:R.
  - assert (A : PyStr.all_space s = true) by now apply rstrip_empty.
    rewrite A, andb_true_r.
    destruct (PyStr.isspace c) eqn:C; simpl; [reflexivity | now rewrite C].
  - simpl in *. now rewrite IH.
Qed.

(** Stripping leaves nothing exactly when the text is all white space. *)
Lemma strip_empty (s : string) :
  PyStr.strip s = "" <-> PyStr.all_space s = true.
Proof.
  unfold PyStr.strip. rewrite lstrip_empty, all_space_rstrip. tauto.
Qed.

Lemma prefix_spec (p s : string) :
  prefix p s = true <-> exists rest, s = p ++ rest.
Proof.
  revert s. induction p as [|c p IH]; intros s.
  - split; [intros _; now exists s | intros _; destruct s; reflexivity].
  - destruct s as [|d s]; simpl.
    + split; [discriminate | intros [rest E]; discriminate].
    + destruct (ascii_dec c d) as [->|N].
      * rewrite IH. split; intros [rest E]; exists rest; congruence.
      * split; [discriminate | intros [rest E]; congruence].
Qed.

(** The substring test of the classifier is the relation [occurs_in]. *)
Lemma contains_spec (sub s : string) :
  PyStr.contains sub s = true <-> occurs_in sub s.
Proof.
  induction s as [|c s IH].
  - cbn [PyStr.contains]. rewrite orb_false_r, prefix_spec. split.
    + intros [rest E]. now exists "", rest.
    + intros [pre [post E]]. destruct pre; [now exists post | discriminate].
  - cbn [PyStr.contains]. rewrite orb_true_iff, prefix_spec, IH. split.
    + intros [[rest E] | [pre [post E]]].
      * now exists "", rest.
      * exists (String c pre), post. simpl. now rewrite E.
    + intros [pre [post E]]. destruct pre as [|d pre].
      * left. now exists post.
      * right. exists pre, post. simpl in E. congruence.
Qed.

Lemma length_take (n : nat) (s : string) :
  n <= String.length s -> String.length (PyStr.take n s) = n.
Proof.
  revert s. induction n as [|n IH]; intros s H; [reflexivity|].
  destruct s as [|c s]; simpl in *; [lia|]. rewrite IH; lia.
Qed.

(** ** Facts about the regular-expression search *)

Lemma upto_last_close_some (s r : string) :
  upto_last_close s = Some r ->
  exists mid post, r = mid ++ "}" /\ s = r ++ post.
Proof.
  revert r. induction s as [|c s IH]; intros r H; simpl in H; [discriminate|].
  destruct (upto_last_close s) as [r'|] eqn:U.
  - injection H as <-. destruct (IH r' eq_refl) as [mid [post [E1 E2]]].
    exists (String c mid), post. simpl. split; congruence.
  - destruct (Ascii.eqb c close_brace) eqn:C; [|discriminate].
    injection H as <-. apply Ascii.eqb_eq in C. subst c. unfold close_brace.
    exists "", s. split; reflexivity.
Qed.

Lemma upto_last_close_none (s : string) :
  upto_last_close s = None -> forall a b, s <> a ++ "}" ++ b.
Proof.
  induction s as [|c s IH]; intros H a b E; simpl in H.
  - destruct a; discriminate.
  - destruct (upto_last_close s) eqn:U; [discriminate|].
    destruct a as [|d a]; simpl in E.
    + injection E as -> _. unfold close_brace in H. simpl in H. discriminate.
    + injection E as _ E. exact (IH eq_refl a b E).
Qed.

(** A match is a braced part of the text it was found in. *)
Lemma re_search_braces_some (s group : string) :
  re_search_braces s = Some group ->
  exists pre mid post, group = "{" ++ mid ++ "}" /\ s = pre ++ group ++ post.
Proof.
  revert group. induction s as [|c s IH]; intros group H; simpl in H;
    [discriminate|].
  destruct (Ascii.eqb c open_brace) eqn:C.
  - destruct (upto_last_close s) as [r|] eqn:U; [|discriminate].
    injection H as <-. apply Ascii.eqb_eq in C. subst c. unfold open_brace.
    destruct (upto_last_close_some _ _ U) as [mid [post [E1 E2]]].
    exists "", mid, post. simpl. split; congruence.
  - destruct (IH group H) as [pre [mid [post [E1 E2]]]].
    exists (String c pre), mid, post. split; [exact E1|].
    cbn [append]. now rewrite <- E2.
Qed.

(** The search finds nothing exactly when the text has no braced part. *)
Lemma re_search_braces_none (s : string) :
  re_search_braces s = None <-> ~ has_braced_part s.
Proof.
  split.
  - induction s as [|c s IH]; intros H [pre [mid [post E]]].
    + destruct pre; discriminate.
    + simpl in H. destruct (Ascii.eqb c open_brace) eqn:C.
      * destruct (upto_last_close s) eqn:U; [discriminate|].
        destruct pre as [|d pre]; simpl in E; injection E as _ E.
        -- exact (upto_last_close_none s U mid post E).
        -- apply (upto_last_close_none s U (pre ++ "{" ++ mid) post).
           rewrite E, append_assoc. reflexivity.
      * destruct pre as [|d pre]; simpl in E.
        -- injection E as -> _. unfold open_brace in C. simpl in C.
           discriminate.
        -- injection E as _ E. apply IH; [exact H|]. now exists pre, mid, post.
  - intros N. destruct (re_search_braces s) as [group|] eqn:R; [|reflexivity].
    exfalso. apply N.
    destruct (re_search_braces_some _ _ R) as [pre [mid [post [E1 E2]]]].
    exists pre, mid, post. rewrite E2, E1. rewrite !append_assoc. reflexivity.
Qed.

(** ** The Domain Classifier *)

Lemma existsb_contains_triggered (lowered : string)
      (entry : string * list string) :
  existsb (fun keyword => PyStr.contains keyword lowered) (snd entry) = true
  <-> triggered lowered entry.
Proof.
  unfold triggered. rewrite existsb_exists.
  split; intros [keyword [I O]]; exists keyword; split; trivial;
    now apply contains_spec.
Qed.

Lemma identify_domain_skip lowered entry rest :
  ~ triggered lowered entry ->
  identify_domain (entry :: rest) lowered = identify_domain rest lowered.
Proof.
  intros N. destruct entry as [domain keywords]. simpl.
  destruct (existsb _ keywords) eqn:E; [|reflexivity].
  exfalso. apply N. now apply (existsb_contains_triggered lowered (domain, keywords)).
Qed.

Lemma identify_domain_hit lowered entry rest :
  triggered lowered entry ->
  identify_domain (entry :: rest) lowered = PyStr.title (fst entry).
Proof.
  intros T. destruct entry as [domain keywords]. simpl.
  apply (existsb_contains_triggered lowered (domain, keywords)) in T.
  simpl in T. now rewrite T.
Qed.

Lemma triggered_dec lowered entry :
  triggered lowered entry \/ ~ triggered lowered entry.
Proof.
  destruct (existsb (fun keyword => PyStr.contains keyword lowered) (snd entry))
    eqn:E.
  - left. now apply existsb_contains_triggered.
  - right. intros T. apply existsb_contains_triggered in T. congruence.
Qed.

Lemma identify_domain_sound lowered domains :
  first_triggered lowered domains (identify_domain domains lowered).
Proof.
  induction domains as [|entry rest IH].
  - apply none_triggered. constructor.
  - destruct (triggered_dec lowered entry) as [T|N].
    + rewrite (identify_domain_hit _ _ _ T).
      apply (entry_triggered lowered [] entry rest); [constructor | exact T].
    + rewrite (identify_domain_skip _ _ _ N).
      inversion IH as [ds F E1 E2 | earlier e later F T E1 E2].
      * apply none_triggered. now constructor.
      * apply (entry_triggered lowered (entry :: earlier) e later);
          [now constructor | exact T].
Qed.

Lemma identify_domain_complete lowered domains d :
  first_triggered lowered domains d -> d = identify_domain domains lowered.
Proof.
  intros H. destruct H as [domains F | earlier entry later F T].
  - induction F as [|entry rest N F IH]; [reflexivity|].
    now rewrite (identify_domain_skip _ _ _ N).
  - induction F as [|e rest N F IH]; simpl app.
    + now rewrite (identify_domain_hit _ _ _ T).
    + now rewrite (identify_domain_skip _ _ _ N).
Qed.

Lemma identify_domain_listed lowered domains :
  In (identify_domain domains lowered)
     (map (fun entry => PyStr.title (fst entry)) domains ++ ["General"])%list.
Proof.
  induction domains as [|[domain keywords] rest IH]; simpl.
  - now left.
  - destruct (existsb _ keywords); [now left | now right].
Qed.

(** C1 (as the code has it): for every text the fallback record names one
    of the five domains in title case or "General" and holds at most five
    keywords; its topic is the stripped text without the filler phrases,
    which is non-empty exactly when that text has a character that is not
    white space. *)
Theorem fallback_record_shape (user_prompt : string) :
  exists topic domain keywords,
    dict_lookup "main_topic" (fallback_parse user_prompt) = Some (VStr topic)
    /\ topic
       = PyStr.strip
           (PyStr.replace "learn about" ""
              (PyStr.replace "teach me about" "" user_prompt))
    /\ (topic <> ""
        <-> PyStr.all_space
              (PyStr.replace "learn about" ""
                 (PyStr.replace "teach me about" "" user_prompt)) = false)
    /\ dict_lookup "subject_domain" (fallback_parse user_prompt)
       = Some (VStr domain)
    /\ In domain domain_names
    /\ dict_lookup "keywords" (fallback_parse user_prompt)
       = Some (VList (map VStr keywords))
    /\ List.length keywords <= 5.
Proof.
  exists (main_topic_of user_prompt),
         (identify_domain common_domains (PyStr.lower user_prompt)),
         (keywords_of user_prompt).
  fold (without_fillers user_prompt).
  split; [reflexivity|]. split; [reflexivity|]. split; [|split; [reflexivity|]].
  - split.
    + intros N. unfold main_topic_of in N.
      destruct (PyStr.all_space (without_fillers user_prompt)) eqn:A;
        [|reflexivity].
      exfalso. apply N. now apply strip_empty.
    + intros A E. apply strip_empty in E. congruence.
  - split; [apply identify_domain_listed|]. split; [reflexivity|].
    unfold keywords_of. apply firstn_le_length.
Qed.

(** C1, counterexample: the text "teach me about" is not empty and its
    fallback record has the empty topic. *)
Lemma fallback_record_incomplete :
  ~ fallback_record_complete "teach me about".
Proof.
  intros H. destruct H as (topic & domain & keywords & T & N & _).
  - discriminate.
  - vm_compute in T. injection T as <-. now apply N.
Qed.

(** C8: the reported domain is the one the rule selects, and only that
    one: the title-cased name of the first entry of the mapping, in its
    order, that has a keyword occurring in the lower-cased text, and
    "General" when no entry has one. *)
Theorem subject_domain_first_triggered (user_prompt domain : string) :
  first_triggered (PyStr.lower user_prompt) common_domains domain
  <-> dict_lookup "subject_domain" (fallback_parse user_prompt)
      = Some (VStr domain).
Proof.
  change (dict_lookup "subject_domain" (fallback_parse user_prompt))
    with (Some (VStr (identify_domain common_domains
                                       (PyStr.lower user_prompt)))).
  split.
  - intros F. now rewrite (identify_domain_complete _ _ _ F).
  - intros E. injection E as <-. apply identify_domain_sound.
Qed.

Example common_domains_order :
  map fst common_domains
  = ["computer science"; "biology"; "physics"; "chemistry"; "mathematics"].
Proof. reflexivity. Qed.

(** ** The Request Parser *)

Section ParserFacts.

Variable parsing_prompt : string -> string.
Variable generate_content : string -> outcome llm_response.
Variable json_loads : string -> outcome dict.

Local Abbreviation parse :=
  (parse_learning_request parsing_prompt generate_content json_loads).

(** C3: when the text of the model's response has no braced part, the
    parser returns the fallback record with no error, after one call to
    the model and one to the fallback. *)
Theorem parser_falls_back
        (user_prompt : string) (response : llm_response)
        (response_text : string) :
  generate_content (parsing_prompt user_prompt) = Returns response ->
  text response = Returns response_text ->
  ~ has_braced_part response_text ->
  run (parse user_prompt)
  = (Returns (Some (fallback_parse user_prompt), None),
     [LlmGenerate (parsing_prompt user_prompt); CallFallback user_prompt]).
Proof.
  intros G T N. apply re_search_braces_none in N.
  unfold run, parse, parse_learning_request, try_except, bind, emit, lift, ret.
  cbn [app]. rewrite G, T, N. reflexivity.
Qed.

(** C4: when the call to the model raises, the parser returns no record
    and the message "Error parsing request: ..." built from the
    exception; the only call made is the one to the model, so the
    fallback is not invoked. *)
Theorem parser_reports_model_failure (user_prompt e : string) :
  generate_content (parsing_prompt user_prompt) = Raises e ->
  run (parse user_prompt)
  = (Returns (None, Some ("Error parsing request: " ++ e)),
     [LlmGenerate (parsing_prompt user_prompt)])
  /\ existsb is_fallback_call (snd (run (parse user_prompt))) = false.
Proof.
  intros G.
  assert (R : run (parse user_prompt)
              = (Returns (None, Some ("Error parsing request: " ++ e)),
                 [LlmGenerate (parsing_prompt user_prompt)])).
  { unfold run, parse, parse_learning_request, try_except, bind, emit, lift,
      ret. cbn [app]. rewrite G. reflexivity. }
  split; [exact R | now rewrite R].
Qed.

(** A match that [json.loads] accepts is returned as the record. *)
Lemma parser_returns_json
      (user_prompt : string) (response : llm_response)
      (response_text group : string) (info : dict) :
  generate_content (parsing_prompt user_prompt) = Returns response ->
  text response = Returns response_text ->
  re_search_braces response_text = Some group ->
  json_loads group = Returns info ->
  run (parse user_prompt)
  = (Returns (Some info, None), [LlmGenerate (parsing_prompt user_prompt)]).
Proof.
  intros G T R J.
  unfold run, parse, parse_learning_request, try_except, bind, emit, lift, ret.
  cbn [app]. rewrite G, T, R, J. reflexivity.
Qed.

(** Whatever happens, the parser returns; its error slot is empty exactly
    when it hands back a record. *)
Lemma parser_total (user_prompt : string) (l : log) :
  exists result l',
    parse user_prompt l = (Returns result, l')
    /\ (error_of (snd result) = None -> exists info, fst result = Some info).
Proof.
  unfold parse, parse_learning_request, try_except, bind, emit, lift, ret.
  destruct (generate_content (parsing_prompt user_prompt)) as [response|e].
  - destruct (text response) as [response_text|e].
    + destruct (re_search_braces response_text) as [group|].
      * destruct (json_loads group) as [info|e]; eexists; eexists;
          (split; [reflexivity|]); cbn; eauto; discriminate.
      * eexists; eexists; split; [reflexivity|]; cbn; eauto.
    + eexists; eexists; split; [reflexivity|]; cbn; discriminate.
  - eexists; eexists; split; [reflexivity|]; cbn; discriminate.
Qed.

End ParserFacts.

(** C3, at a model that answers in prose. *)
Lemma parser_falls_back_witness :
  run (parse_learning_request Mock.parsing_prompt
         (Mock.llm_says "I cannot help with that.") Mock.json_loads
         "teach me about black holes")
  = (Returns (Some (fallback_parse "teach me about black holes"), None),
     [LlmGenerate (Mock.parsing_prompt "teach me about black holes");
      CallFallback "teach me about black holes"]).
Proof.
  apply (parser_falls_back Mock.parsing_prompt
           (Mock.llm_says "I cannot help with that.") Mock.json_loads
           "teach me about black holes"
           {| text := Returns "I cannot help with that." |}
           "I cannot help with that.").
  - reflexivity.
  - reflexivity.
  - apply re_search_braces_none. reflexivity.
Defined.

(** C4, at a model that cannot be reached. *)
Lemma parser_reports_model_failure_witness :
  run (parse_learning_request Mock.parsing_prompt Mock.llm_down Mock.json_loads
         "learn about cells")
  = (Returns (None, Some "Error parsing request: 503 Service Unavailable"),
     [LlmGenerate (Mock.parsing_prompt "learn about cells")])
  /\ existsb is_fallback_call
       (snd (run (parse_learning_request Mock.parsing_prompt Mock.llm_down
                    Mock.json_loads "learn about cells"))) = false.
Proof.
  apply (parser_reports_model_failure Mock.parsing_prompt Mock.llm_down
           Mock.json_loads "learn about cells" "503 Service Unavailable").
  reflexivity.
Defined.

(** ** The Reference Fetcher *)

Lemma queried_app (l1 l2 : log) :
  queried (l1 ++ l2)%list = (queried l1 ++ queried l2)%list.
Proof.
  induction l1 as [|e l1 IH]; [reflexivity|].
  destruct e; simpl; now rewrite IH.
Qed.

Lemma queried_wiki_pages (qs : list value) : queried (map WikiPage qs) = qs.
Proof. induction qs as [|q qs IH]; simpl; [reflexivity | now rewrite IH]. Qed.

Lemma synthesizer_not_in_wiki_pages (qs : list value) :
  existsb is_synthesizer_call (map WikiPage qs) = false.
Proof. induction qs as [|q qs IH]; simpl; [reflexivity | exact IH]. Qed.

(** Lengths of the stored summary. *)
Lemma limit_summary_long (summary : string) :
  1500 < String.length summary ->
  limit_summary summary = PyStr.take 1500 summary ++ "..."
  /\ String.length (limit_summary summary) = 1503.
Proof.
  intros L. unfold limit_summary.
  destruct (Nat.ltb_spec 1500 (String.length summary)) as [_|G]; [|lia].
  split; [reflexivity|].
  rewrite length_append, length_take by lia. reflexivity.
Qed.

Lemma limit_summary_short (summary : string) :
  String.length summary <= 1500 -> limit_summary summary = summary.
Proof.
  intros L. unfold limit_summary.
  destruct (Nat.ltb_spec 1500 (String.length summary)) as [G|_]; [lia|].
  reflexivity.
Qed.

Lemma limit_summary_bound (summary : string) :
  String.length (limit_summary summary) <= 1503.
Proof.
  destruct (Nat.le_gt_cases (String.length summary) 1500) as [L|L].
  - rewrite limit_summary_short by exact L. lia.
  - destruct (limit_summary_long summary L) as [_ E]. lia.
Qed.

Section FetcherFacts.

Variable wiki : value -> outcome wiki_page.

Local Abbreviation accepted := (contexts_for wiki).

Lemma contexts_for_length (term : value) : List.length (accepted term) <= 1.
Proof.
  unfold accepted, contexts_for.
  destruct (wiki term) as [page|e]; simpl; [|lia].
  destruct (page_exists page) as [[|]|]; simpl; try lia.
  destruct (page_summary page); simpl; try lia.
  destruct (page_title page); simpl; try lia.
  destruct (page_fullurl page); simpl; try lia.
  destruct (usable_summary a); simpl; lia.
Qed.

(** Where an accepted context comes from. *)
Lemma contexts_for_inv (term : value) (ctx : context) :
  In ctx (accepted term) ->
  exists page summary,
    wiki term = Returns page
    /\ page_exists page = Returns true
    /\ page_summary page = Returns summary
    /\ usable_summary summary = true
    /\ page_title page = Returns (title ctx)
    /\ page_fullurl page = Returns (url ctx)
    /\ content ctx = limit_summary summary.
Proof.
  unfold accepted, contexts_for.
  destruct (wiki term) as [page|e] eqn:W; simpl; [|tauto].
  destruct (page_exists page) as [[|]|] eqn:X; simpl; try tauto.
  destruct (page_summary page) as [summary|] eqn:S; simpl; try tauto.
  destruct (page_title page) as [t|] eqn:T; simpl; try tauto.
  destruct (page_fullurl page) as [u|] eqn:F; simpl; try tauto.
  destruct (usable_summary summary) eqn:U; simpl; try tauto.
  intros [<-|[]]. exists page, summary. simpl. repeat split; trivial.
Qed.

Lemma fetch_loop_full (terms : list value) (contexts : list context)
      (l : log) :
  2 <= List.length contexts ->
  fetch_loop wiki terms contexts l = (Returns contexts, l).
Proof.
  intros L. destruct terms as [|term rest]; [reflexivity|].
  cbn [fetch_loop].
  destruct (Nat.leb_spec 2 (List.length contexts)) as [_|G]; [reflexivity|lia].
Qed.

(** One turn of the loop below the limit: the term is queried, and then
    either its lookup raises or the loop goes on with what the term
    contributes. *)
Lemma fetch_loop_step (term : value) (rest : list value)
      (contexts : list context) (l : log) :
  List.length contexts < 2 ->
  (exists e, fetch_loop wiki (term :: rest) contexts l
             = (Raises e, (l ++ [WikiPage term])%list))
  \/ fetch_loop wiki (term :: rest) contexts l
     = fetch_loop wiki rest (contexts ++ accepted term)%list
                  (l ++ [WikiPage term])%list.
Proof.
  intros L. cbn [fetch_loop].
  destruct (Nat.leb_spec 2 (List.length contexts)) as [G|_]; [lia|].
  unfold accepted, contexts_for, bind, emit, lift.
  destruct (wiki term) as [page|e]; [|left; now exists e].
  destruct (page_exists page) as [[|]|e]; [| |left; now exists e].
  - destruct (page_summary page) as [summary|e]; [|left; now exists e].
    destruct (usable_summary summary).
    + destruct (page_title page) as [t|e]; [|left; now exists e].
      destruct (page_fullurl page) as [u|e]; [|left; now exists e].
      right. reflexivity.
    + right. destruct (page_title page), (page_fullurl page);
        now rewrite app_nil_r.
  - right. now rewrite app_nil_r.
Qed.

(** What the loop has done when it stops: it queried a prefix [qs] of
    the terms, each while fewer than two contexts were held, and a
    normal exit returns the contexts of [qs] in order, two of them
    unless every term was queried. *)
Lemma fetch_loop_inv (terms : list value) :
  forall (contexts : list context) (l : log) o l',
    fetch_loop wiki terms contexts l = (o, l') ->
    List.length contexts <= 2 ->
    exists qs rest,
      terms = (qs ++ rest)%list
      /\ l' = (l ++ map WikiPage qs)%list
      /\ (forall pre t post,
             qs = (pre ++ t :: post)%list ->
             List.length contexts + List.length (flat_map accepted pre) < 2)
      /\ (forall cs,
             o = Returns cs ->
             cs = (contexts ++ flat_map accepted qs)%list
             /\ List.length cs <= 2
             /\ (List.length cs < 2 -> rest = [])).
Proof.
  induction terms as [|term terms IH]; intros contexts l o l' H B.
  - cbn in H. injection H as <- <-. exists [], [].
    repeat split; try (now rewrite app_nil_r).
    + intros pre t post E. destruct pre; discriminate.
    + injection H as <-. now rewrite app_nil_r.
    + injection H as <-. exact B.
  - destruct (Nat.le_gt_cases 2 (List.length contexts)) as [F|L].
    + rewrite fetch_loop_full in H by exact F. injection H as <- <-.
      exists [], (term :: terms).
      repeat split; try (now rewrite app_nil_r).
      * intros pre t post E. destruct pre; discriminate.
      * injection H as <-. now rewrite app_nil_r.
      * injection H as <-. exact B.
      * injection H as <-. lia.
    + destruct (fetch_loop_step term terms contexts l L) as [[e R]|R];
        rewrite R in H.
      * injection H as <- <-. exists [term], terms.
        repeat split; try discriminate.
        intros pre t post E. destruct pre as [|p pre]; [simpl; lia|].
        destruct pre; discriminate.
      * pose proof (contexts_for_length term) as A.
        apply IH in H; [|rewrite length_app; lia].
        destruct H as (qs & rest & E1 & E2 & P & Q).
        exists (term :: qs), rest. repeat split.
        -- now rewrite E1.
        -- rewrite E2, <- app_assoc. reflexivity.
        -- intros pre t post E. destruct pre as [|p pre]; [simpl; lia|].
           injection E as <- E. apply P in E.
           rewrite length_app in E. cbn [flat_map]. rewrite length_app. lia.
        -- apply Q in H. destruct H as [H _]. rewrite H.
           cbn [flat_map]. now rewrite app_assoc.
        -- now apply Q in H.
        -- now apply Q in H.
Qed.

Local Abbreviation fetch := (fetch_wikipedia_context wiki).

(** The fetcher always returns, with one of three results: the contexts
    of the queried terms, the message for an empty collection, or the
    message for an exception. *)
Lemma fetch_inv (keywords main_topic : value) (l : log) :
  exists qs rest result,
    fetch keywords main_topic l = (Returns result, (l ++ map WikiPage qs)%list)
    /\ search_terms_of keywords main_topic = (qs ++ rest)%list
    /\ (forall pre t post,
           qs = (pre ++ t :: post)%list ->
           List.length (flat_map accepted pre) < 2)
    /\ ((result = (Some (flat_map accepted qs), None)
          /\ 1 <= List.length (flat_map accepted qs) <= 2)
        \/ (result = (None, Some "No relevant Wikipedia content found")
            /\ flat_map accepted qs = [] /\ rest = [])
        \/ (exists e,
               result = (None, Some ("Error fetching Wikipedia data: " ++ e)))).
Proof.
  unfold fetch, fetch_wikipedia_context, try_except, bind.
  assert (Stop : forall e : string,
             exists qs rest result,
               (Returns (A := option (list context) * option string)
                        (None, Some ("Error fetching Wikipedia data: " ++ e)),
                l)
               = (Returns result, (l ++ map WikiPage qs)%list)
               /\ @nil value = (qs ++ rest)%list
               /\ (forall pre t post,
                      qs = (pre ++ t :: post)%list ->
                      List.length (flat_map accepted pre) < 2)
               /\ ((result = (Some (flat_map accepted qs), None)
                     /\ 1 <= List.length (flat_map accepted qs) <= 2)
                   \/ (result
                       = (None, Some "No relevant Wikipedia content found")
                       /\ flat_map accepted qs = [] /\ rest = [])
                   \/ (exists e',
                          result
                          = (None,
                             Some ("Error fetching Wikipedia data: " ++ e'))))).
  { intros e. exists [], [], (None, Some ("Error fetching Wikipedia data: " ++ e)).
    cbn [map]. rewrite app_nil_r. repeat split.
    - intros pre t post E. destruct pre; discriminate.
    - right. right. now exists e. }
  destruct keywords as [ | b | z | r | s | kws | d ];
    cbn [slice3 list_plus search_terms_of raise ret]; try apply Stop.
  destruct (fetch_loop wiki (main_topic :: firstn 3 kws) [] l) as [o l'] eqn:R.
  apply fetch_loop_inv in R; [|simpl; lia].
  destruct R as (qs & rest & E1 & E2 & P & Q).
  destruct o as [cs|e].
  - destruct (Q cs eq_refl) as (C1 & C2 & C3). cbn [app] in C1.
    exists qs, rest. destruct cs as [|c cs].
    + exists (None, Some "No relevant Wikipedia content found").
      cbn [ret]. subst l'. repeat split; trivial.
      right. left. repeat split; auto; apply C3; simpl; lia.
    + exists (Some (c :: cs), None).
      cbn [ret]. subst l'. repeat split; trivial.
      left. rewrite <- C1. repeat split; trivial. simpl. lia.
  - exists qs, rest, (None, Some ("Error fetching Wikipedia data: " ++ e)).
    cbn [ret]. subst l'. repeat split; trivial.
    right. right. now exists e.
Qed.

(** C5: the fetcher returns at most two contexts, those accepted for the
    terms it queried, in order; the terms it queries are an initial part of
    [[main_topic] + keywords[:3]], and each of them is queried while fewer
    than two contexts have been accepted, so no term is queried once two
    are held. *)
Theorem fetcher_stops_at_two (keywords main_topic : value) :
  (forall contexts err,
      fst (run (fetch keywords main_topic)) = Returns (Some contexts, err) ->
      List.length contexts <= 2
      /\ contexts
         = flat_map accepted (queried (snd (run (fetch keywords main_topic)))))
  /\ (exists rest,
        search_terms_of keywords main_topic
        = (queried (snd (run (fetch keywords main_topic))) ++ rest)%list)
  /\ (forall pre t post,
        queried (snd (run (fetch keywords main_topic)))
        = (pre ++ t :: post)%list ->
        List.length (flat_map accepted pre) < 2).
Proof.
  unfold run.
  destruct (fetch_inv keywords main_topic [])
    as (qs & rest & result & R & E & P & Q).
  rewrite R. cbn [fst snd app]. rewrite queried_wiki_pages.
  split; [|split].
  - intros contexts err H. injection H as ->.
    destruct Q as [[Q B]|[[Q _]|[e Q]]]; try discriminate.
    injection Q as Q _. rewrite Q. split; [lia | reflexivity].
  - now exists rest.
  - exact P.
Qed.

(** C2 (as the code has it): the content of an accepted context is the
    summary of the page of one of the search terms, unchanged when the
    summary has at most 1500 characters, and otherwise its first 1500
    characters followed by the three-character marker "..."; so it has at
    most 1503 characters. *)
Theorem stored_content_limited
        (keywords main_topic : value) (contexts : list context)
        (err : option string) (l : log) (ctx : context) :
  run (fetch keywords main_topic) = (Returns (Some contexts, err), l) ->
  In ctx contexts ->
  String.length (content ctx) <= 1503
  /\ exists term page summary,
      In term (search_terms_of keywords main_topic)
      /\ wiki term = Returns page
      /\ page_summary page = Returns summary
      /\ (String.length summary <= 1500 -> content ctx = summary)
      /\ (1500 < String.length summary ->
          content ctx = PyStr.take 1500 summary ++ "..."
          /\ String.length (content ctx) = 1503).
Proof.
  unfold run. intros H I.
  destruct (fetch_inv keywords main_topic [])
    as (qs & rest & result & R & E & P & Q).
  rewrite R in H. injection H as -> _.
  destruct Q as [[Q B]|[[Q _]|[e Q]]]; try discriminate.
  injection Q as Q _. rewrite Q in I.
  apply in_flat_map in I. destruct I as (term & I & C).
  apply contexts_for_inv in C.
  destruct C as (page & summary & W & X & S & U & T & F & K).
  rewrite K. split; [apply limit_summary_bound|].
  exists term, page, summary. repeat split; trivial.
  - rewrite E. apply in_or_app. now left.
  - apply limit_summary_short.
  - now apply limit_summary_long.
  - now apply limit_summary_long.
Qed.

End FetcherFacts.

(** C5, at a source where every term has a usable page. *)
Lemma fetcher_stops_at_two_witness :
  (forall contexts err,
      fst (run (fetch_wikipedia_context (Mock.wiki_sized 120)
                  (VList [VStr "cell"; VStr "division"; VStr "phase"])
                  (VStr "Mitosis")))
      = Returns (Some contexts, err) ->
      List.length contexts <= 2
      /\ contexts
         = flat_map (contexts_for (Mock.wiki_sized 120))
             (queried
                (snd (run (fetch_wikipedia_context (Mock.wiki_sized 120)
                             (VList [VStr "cell"; VStr "division";
                                     VStr "phase"])
                             (VStr "Mitosis"))))))
  /\ (exists rest,
        search_terms_of (VList [VStr "cell"; VStr "division"; VStr "phase"])
                        (VStr "Mitosis")
        = (queried (snd (run (fetch_wikipedia_context (Mock.wiki_sized 120)
                                (VList [VStr "cell"; VStr "division";
                                        VStr "phase"])
                                (VStr "Mitosis")))) ++ rest)%list)
  /\ (forall pre t post,
        queried (snd (run (fetch_wikipedia_context (Mock.wiki_sized 120)
                             (VList [VStr "cell"; VStr "division";
                                     VStr "phase"])
                             (VStr "Mitosis"))))
        = (pre ++ t :: post)%list ->
        List.length (flat_map (contexts_for (Mock.wiki_sized 120)) pre) < 2).
Proof.
  exact (fetcher_stops_at_two (Mock.wiki_sized 120)
           (VList [VStr "cell"; VStr "division"; VStr "phase"])
           (VStr "Mitosis")).
Defined.

Example fetcher_queries_two_of_four :
  queried (snd (run (fetch_wikipedia_context (Mock.wiki_sized 120)
                       (VList [VStr "cell"; VStr "division"; VStr "phase"])
                       (VStr "Mitosis"))))
  = [VStr "Mitosis"; VStr "cell"].
Proof. vm_compute. reflexivity. Qed.

Lemma long_summary_run :
  run (fetch_wikipedia_context (Mock.wiki_sized 1501) (VList [])
         (VStr "Mitosis"))
  = (Returns (Some [Mock.long_context], None), [WikiPage (VStr "Mitosis")]).
Proof. vm_compute. reflexivity. Qed.

(** C2, at a page whose summary has 1501 characters. *)
Lemma stored_content_limited_witness :
  String.length (content Mock.long_context) <= 1503
  /\ exists term page summary,
      In term (search_terms_of (VList []) (VStr "Mitosis"))
      /\ Mock.wiki_sized 1501 term = Returns page
      /\ page_summary page = Returns summary
      /\ (String.length summary <= 1500 ->
          content Mock.long_context = summary)
      /\ (1500 < String.length summary ->
          content Mock.long_context = PyStr.take 1500 summary ++ "..."
          /\ String.length (content Mock.long_context) = 1503).
Proof.
  apply (stored_content_limited (Mock.wiki_sized 1501) (VList [])
           (VStr "Mitosis") [Mock.long_context] None
           [WikiPage (VStr "Mitosis")] Mock.long_context).
  - exact long_summary_run.
  - left. reflexivity.
Defined.

(** C2, counterexample: a summary of 1501 characters is stored as 1503
    characters, more than 1500. *)
Lemma content_exceeds_1500 :
  ~ content_within_1500 (Mock.wiki_sized 1501) (VList []) (VStr "Mitosis").
Proof.
  intros H.
  specialize (H [Mock.long_context] None [WikiPage (VStr "Mitosis")]
                Mock.long_context long_summary_run (or_introl eq_refl)).
  assert (E : String.length (content Mock.long_context) = 1503)
    by (vm_compute; reflexivity).
  rewrite E in H. lia.
Qed.

(** ** The Request Handler *)

Section HandlerFacts.

Variable parsing_prompt : string -> string.
Variable study_prompt :
  string -> value -> value -> value -> value -> list context -> string.
Variable generate_content : string -> outcome llm_response.
Variable wiki : value -> outcome wiki_page.
Variable json_loads : string -> outcome dict.
Variable now_isoformat : string.

Local Abbreviation parse :=
  (parse_learning_request parsing_prompt generate_content json_loads).
Local Abbreviation fetch := (fetch_wikipedia_context wiki).
Local Abbreviation synthesize :=
  (generate_comprehensive_study_material study_prompt generate_content).
Local Abbreviation handler :=
  (generate_study_material parsing_prompt study_prompt generate_content wiki
     json_loads now_isoformat).

(** Unfolds the handler's own steps and leaves the three stages folded. *)
Ltac handler_steps :=
  cbv beta iota zeta
      delta [generate_study_material run try_except bind lift ret raise
             get_with_default strip_method subscript_opt subscript
             iterate].

Ltac handler_steps_in H :=
  cbv beta iota zeta
      delta [generate_study_material run try_except bind lift ret raise
             get_with_default strip_method subscript_opt subscript
             iterate] in H.

(** C7: a prompt that is empty or all white space is answered with the
    fixed validation error, and nothing has been called by then. *)
Theorem blank_prompt_rejected (body : dict) (raw : string) :
  dict_lookup "prompt" body = Some (VStr raw) ->
  PyStr.all_space raw = true ->
  run (handler (Returns (VDict body)))
  = (Returns (Failure "Please provide a learning prompt"), []).
Proof.
  intros P A. apply strip_empty in A.
  handler_steps. rewrite P. handler_steps. rewrite A. reflexivity.
Qed.

(** The parser calls neither the synthesizer nor the encyclopedia. *)
Lemma parser_log (user_prompt : string) o (l1 : log) :
  run (parse user_prompt) = (o, l1) ->
  existsb is_synthesizer_call l1 = false.
Proof.
  unfold run, parse_learning_request, try_except, bind, emit, lift, ret.
  cbn [app].
  destruct (generate_content (parsing_prompt user_prompt)) as [response|e].
  - destruct (text response) as [response_text|e].
    + destruct (re_search_braces response_text) as [group|].
      * destruct (json_loads group); intros H; injection H as _ <-;
          reflexivity.
      * intros H; injection H as _ <-; reflexivity.
    + intros H; injection H as _ <-; reflexivity.
  - intros H; injection H as _ <-; reflexivity.
Qed.

Lemma flat_map_all_nil {A B : Type} (f : A -> list B) (l : list A) :
  (forall x, In x l -> f x = []) -> flat_map f l = [].
Proof.
  intros Z. destruct (flat_map f l) as [|y ys] eqn:E; [reflexivity|].
  assert (I : In y (flat_map f l)) by (rewrite E; now left).
  apply in_flat_map in I. destruct I as (x & I & J).
  rewrite (Z x I) in J. destruct J.
Qed.

Lemma existsb_synthesizer_app (l : log) (qs : list value) :
  existsb is_synthesizer_call (l ++ map WikiPage qs)%list
  = existsb is_synthesizer_call l.
Proof.
  rewrite existsb_app, synthesizer_not_in_wiki_pages. apply orb_false_r.
Qed.

(** C6: when no search term gives an accepted context, the fetcher returns
    an error message (the one for an empty collection, or the one for an
    exception), the handler answers with that message as a failure, and
    the synthesizer has not been called. *)
Theorem no_context_aborts
        (body : dict) (raw : string) (info : dict) (l1 : log)
        (keywords main_topic : value) :
  dict_lookup "prompt" body = Some (VStr raw) ->
  PyStr.strip raw <> "" ->
  run (parse (PyStr.strip raw)) = (Returns (Some info, None), l1) ->
  dict_lookup "keywords" info = Some keywords ->
  dict_lookup "main_topic" info = Some main_topic ->
  (forall term,
      In term (search_terms_of keywords main_topic) ->
      contexts_for wiki term = []) ->
  exists err l2,
    fetch keywords main_topic l1 = (Returns (None, Some err), l2)
    /\ (err = "No relevant Wikipedia content found"
        \/ exists e, err = "Error fetching Wikipedia data: " ++ e)
    /\ run (handler (Returns (VDict body))) = (Returns (Failure err), l2)
    /\ existsb is_synthesizer_call l2 = false.
Proof.
  intros P N R K T Z.
  pose proof (parser_log _ _ _ R) as L1.
  destruct (fetch_inv wiki keywords main_topic l1)
    as (qs & rest & result & F & E & _ & Q).
  assert (A : flat_map (contexts_for wiki) qs = []).
  { apply flat_map_all_nil. intros term I. apply Z. rewrite E.
    apply in_or_app. now left. }
  assert (H : run (handler (Returns (VDict body)))
              = (let (o, l') := fetch keywords main_topic l1 in
                 match o with
                 | Returns fetched =>
                     match error_of (snd fetched) with
                     | Some wiki_error => (Returns (Failure wiki_error), l')
                     | None => run (handler (Returns (VDict body)))
                     end
                 | Raises msg => (Returns (Failure ("Server error: " ++ msg)), l')
                 end)).
  { handler_steps. rewrite P. handler_steps.
    apply is_empty_false in N. rewrite N.
    unfold run in R. rewrite R. cbn [fst snd error_of]. handler_steps.
    rewrite K. handler_steps. rewrite T. handler_steps.
    rewrite F. destruct (error_of (snd result)); reflexivity. }
  rewrite F in H.
  destruct Q as [[_ B]|[[Q _]|[e Q]]].
  - rewrite A in B. simpl in B. lia.
  - subst result. exists "No relevant Wikipedia content found".
    exists (l1 ++ map WikiPage qs)%list.
    split; [exact F|]. split; [now left|]. split; [exact H|].
    rewrite existsb_synthesizer_app. exact L1.
  - subst result. exists ("Error fetching Wikipedia data: " ++ e).
    exists (l1 ++ map WikiPage qs)%list.
    split; [exact F|]. split; [right; now exists e|]. split; [exact H|].
    rewrite existsb_synthesizer_app. exact L1.
Qed.

(** C9: the parser hands back any object that [json.loads] accepts; when
    that object has no [keywords] key, or has one and no [main_topic] key,
    the parser reports success and the handler answers with the message of
    its outer handler, "Server error: " followed by the quoted key. *)
Theorem unvalidated_json_server_error
        (body : dict) (raw : string) (response : llm_response)
        (response_text group : string) (info : dict) :
  dict_lookup "prompt" body = Some (VStr raw) ->
  PyStr.strip raw <> "" ->
  generate_content (parsing_prompt (PyStr.strip raw)) = Returns response ->
  text response = Returns response_text ->
  re_search_braces response_text = Some group ->
  json_loads group = Returns info ->
  dict_lookup "keywords" info = None \/ dict_lookup "main_topic" info = None ->
  fst (run (parse (PyStr.strip raw))) = Returns (Some info, None)
  /\ exists key,
      (key = "keywords" \/ key = "main_topic")
      /\ dict_lookup key info = None
      /\ fst (run (handler (Returns (VDict body))))
         = Returns (Failure ("Server error: " ++ squote key)).
Proof.
  intros P N G X S J D.
  pose proof (parser_returns_json parsing_prompt generate_content json_loads
                _ _ _ _ _ G X S J) as R.
  split; [now rewrite R|].
  apply is_empty_false in N. unfold run in R.
  destruct (dict_lookup "keywords" info) as [keywords|] eqn:K.
  - destruct D as [D|D]; [discriminate|].
    exists "main_topic". repeat split; [now right | exact D |].
    handler_steps. rewrite P. handler_steps. rewrite N, R.
    cbn [fst snd error_of]. handler_steps. rewrite K. handler_steps.
    rewrite D. reflexivity.
  - exists "keywords". repeat split; [now left | exact K |].
    handler_steps. rewrite P. handler_steps. rewrite N, R.
    cbn [fst snd error_of]. handler_steps. rewrite K. reflexivity.
Qed.

(** The parser queries nothing. *)
Lemma parser_queries_nothing (user_prompt : string) o (l1 : log) :
  run (parse user_prompt) = (o, l1) -> queried l1 = [].
Proof.
  unfold run, parse_learning_request, try_except, bind, emit, lift, ret.
  cbn [app].
  destruct (generate_content (parsing_prompt user_prompt)) as [response|e].
  - destruct (text response) as [response_text|e].
    + destruct (re_search_braces response_text) as [group|].
      * destruct (json_loads group); intros H; injection H as _ <-;
          reflexivity.
      * intros H; injection H as _ <-; reflexivity.
    + intros H; injection H as _ <-; reflexivity.
  - intros H; injection H as _ <-; reflexivity.
Qed.

Ltac synthesizer_steps_in H :=
  cbv beta iota zeta
      delta [generate_comprehensive_study_material try_except bind emit lift
             ret raise iterate subscript_opt subscript] in H.

(** A run of the synthesizer that leaves no error: the four keys were
    read, the model was called once with the prompt built from them, and
    its non-empty text is the result. *)
Lemma synthesizer_success
      (info : dict) (contexts : list context) (original_prompt : string)
      (l0 : log) (generated : option string * option string) (l' : log) :
  synthesize (Some info) (Some contexts) original_prompt l0
  = (Returns generated, l') ->
  error_of (snd generated) = None ->
  exists main_topic subject_domain specific_focus complexity_level
         response response_text,
    dict_lookup "main_topic" info = Some main_topic
    /\ dict_lookup "subject_domain" info = Some subject_domain
    /\ dict_lookup "specific_focus" info = Some specific_focus
    /\ dict_lookup "complexity_level" info = Some complexity_level
    /\ generate_content
         (study_prompt original_prompt main_topic subject_domain
                       specific_focus complexity_level contexts)
       = Returns response
    /\ text response = Returns response_text
    /\ response_text <> ""
    /\ generated = (Some response_text, None)
    /\ l' = (l0 ++ [CallSynthesizer;
                    LlmGenerate
                      (study_prompt original_prompt main_topic subject_domain
                                    specific_focus complexity_level
                                    contexts)])%list.
Proof.
  intros H E. synthesizer_steps_in H.
  destruct (dict_lookup "main_topic" info) as [main_topic|] eqn:K1;
    synthesizer_steps_in H;
    [|injection H as <- _; discriminate].
  destruct (dict_lookup "subject_domain" info) as [subject_domain|] eqn:K2;
    synthesizer_steps_in H;
    [|injection H as <- _; discriminate].
  destruct (dict_lookup "specific_focus" info) as [specific_focus|] eqn:K3;
    synthesizer_steps_in H;
    [|injection H as <- _; discriminate].
  destruct (dict_lookup "complexity_level" info) as [complexity_level|] eqn:K4;
    synthesizer_steps_in H;
    [|injection H as <- _; discriminate].
  destruct (generate_content
              (study_prompt original_prompt main_topic subject_domain
                            specific_focus complexity_level contexts))
    as [response|e] eqn:G; [|injection H as <- _; discriminate].
  destruct (text response) as [response_text|e] eqn:T;
    [|injection H as <- _; discriminate].
  destruct response_text as [|c response_text];
    cbn [PyStr.is_empty] in H; injection H as <- <-; [discriminate|].
  exists main_topic, subject_domain, specific_focus, complexity_level,
         response, (String c response_text).
  repeat split; trivial; [discriminate|].
  now rewrite <- app_assoc.
Qed.

(** What stands behind an answer with [success: true]: the request, the
    record the parser returned for it, the contexts the fetcher returned
    for that record, and the text the model returned for the prompt built
    from all of them. *)
Lemma success_inv
      (get_json : outcome value) (study_material : option string)
      (parsed_info : option dict) (sources : list string)
      (generated_at : string) (l : log) :
  run (handler get_json)
  = (Returns (Success study_material parsed_info sources generated_at), l) ->
  exists body raw info perr l0 keywords main_topic qs
         subject_domain specific_focus complexity_level response response_text,
    get_json = Returns (VDict body)
    /\ dict_lookup "prompt" body = Some (VStr raw)
    /\ run (parse (PyStr.strip raw)) = (Returns (Some info, perr), l0)
    /\ queried l0 = []
    /\ parsed_info = Some info
    /\ dict_lookup "keywords" info = Some keywords
    /\ dict_lookup "main_topic" info = Some main_topic
    /\ fetch keywords main_topic l0
       = (Returns (Some (flat_map (contexts_for wiki) qs), None),
          (l0 ++ map WikiPage qs)%list)
    /\ 1 <= List.length (flat_map (contexts_for wiki) qs) <= 2
    /\ sources = map title (flat_map (contexts_for wiki) qs)
    /\ dict_lookup "subject_domain" info = Some subject_domain
    /\ dict_lookup "specific_focus" info = Some specific_focus
    /\ dict_lookup "complexity_level" info = Some complexity_level
    /\ generate_content
         (study_prompt (PyStr.strip raw) main_topic subject_domain
                       specific_focus complexity_level
                       (flat_map (contexts_for wiki) qs))
       = Returns response
    /\ text response = Returns response_text
    /\ response_text <> ""
    /\ study_material = Some response_text
    /\ generated_at = now_isoformat
    /\ l = (l0 ++ map WikiPage qs
             ++ [CallSynthesizer;
                 LlmGenerate
                   (study_prompt (PyStr.strip raw) main_topic subject_domain
                                 specific_focus complexity_level
                                 (flat_map (contexts_for wiki) qs))])%list.
Proof.
  intros H. handler_steps_in H.
  destruct get_json as [data|e]; [|discriminate].
  destruct data as [ | b | z | r | s | vs | body ]; try discriminate.
  destruct (dict_lookup "prompt" body) as [prompt|] eqn:P; handler_steps_in H.
  2:{ discriminate. }
  destruct prompt as [ | b | z | r | raw | vs | d ]; try discriminate.
  handler_steps_in H.
  destruct (PyStr.is_empty (PyStr.strip raw)); [discriminate|].
  destruct (parser_total parsing_prompt generate_content json_loads
              (PyStr.strip raw) []) as (parsed & l1 & R & I).
  pose proof (parser_queries_nothing _ _ _ R) as Q1.
  rewrite R in H. handler_steps_in H.
  destruct (error_of (snd parsed)) eqn:PE; [discriminate|].
  destruct (I eq_refl) as [info E].
  destruct parsed as [parsed_dict perr]. cbn [fst snd] in *. subst parsed_dict.
  handler_steps_in H.
  destruct (dict_lookup "keywords" info) as [keywords|] eqn:K;
    [|discriminate].
  handler_steps_in H.
  destruct (dict_lookup "main_topic" info) as [main_topic|] eqn:M;
    [|discriminate].
  handler_steps_in H.
  destruct (fetch_inv wiki keywords main_topic l1)
    as (qs & rest & result & F & _ & _ & Q).
  rewrite F in H.
  destruct Q as [[Q B]|[[Q _]|[e Q]]]; subst result;
    cbn [fst snd error_of PyStr.is_empty append] in H; try discriminate.
  handler_steps_in H.
  destruct (synthesize (Some info) (Some (flat_map (contexts_for wiki) qs))
                       (PyStr.strip raw) (l1 ++ map WikiPage qs)%list)
    as [[generated|e] l3] eqn:S; [|discriminate].
  destruct (error_of (snd generated)) eqn:GE; [discriminate|].
  destruct (synthesizer_success _ _ _ _ _ _ S GE)
    as (mt & sd & sf & cl & response & response_text
        & K1 & K2 & K3 & K4 & G & T & N & -> & ->).
  rewrite M in K1. injection K1 as <-.
  cbn [fst] in H. injection H as <- <- <- <- <-.
  exists body, raw, info, perr, l1, keywords, main_topic, qs, sd, sf, cl,
         response, response_text.
  repeat split; trivial; try lia. now rewrite <- app_assoc.
Qed.

(** C10: in an answer with [success: true], [sources] holds one or two
    titles: the titles, in order, of the contexts that the fetcher returned
    when called with the [keywords] and [main_topic] of the record in the
    answer; these are the accepted contexts of the terms queried during the
    request, in query order. *)
Theorem success_lists_sources
        (get_json : outcome value) (study_material : option string)
        (parsed_info : option dict) (sources : list string)
        (generated_at : string) (l : log) :
  run (handler get_json)
  = (Returns (Success study_material parsed_info sources generated_at), l) ->
  1 <= List.length sources <= 2
  /\ sources = map title (flat_map (contexts_for wiki) (queried l))
  /\ exists info keywords main_topic l0 contexts l1,
      parsed_info = Some info
      /\ dict_lookup "keywords" info = Some keywords
      /\ dict_lookup "main_topic" info = Some main_topic
      /\ fetch keywords main_topic l0 = (Returns (Some contexts, None), l1)
      /\ queried l0 = []
      /\ queried l1 = queried l
      /\ contexts = flat_map (contexts_for wiki) (queried l)
      /\ sources = map title contexts.
Proof.
  intros H. apply success_inv in H.
  destruct H as (body & raw & info & perr & l0 & keywords & main_topic & qs
                 & sd & sf & cl & response & response_text
                 & _ & _ & _ & Q0 & -> & K & M & F & B & -> & _ & _ & _ & _
                 & _ & _ & _ & _ & ->).
  assert (Q : queried (l0 ++ map WikiPage qs
                       ++ [CallSynthesizer;
                           LlmGenerate
                             (study_prompt (PyStr.strip raw) main_topic sd sf
                                           cl (flat_map (contexts_for wiki)
                                                        qs))])%list
              = qs).
  { rewrite !queried_app, Q0, queried_wiki_pages. cbn. apply app_nil_r. }
  rewrite Q, length_map. split; [exact B|]. split; [reflexivity|].
  exists info, keywords, main_topic, l0, (flat_map (contexts_for wiki) qs),
         (l0 ++ map WikiPage qs)%list.
  repeat split; trivial.
  rewrite queried_app, Q0, queried_wiki_pages. reflexivity.
Qed.

End HandlerFacts.

(** C7, at a prompt of three spaces. *)
Lemma blank_prompt_rejected_witness :
  run (generate_study_material Mock.parsing_prompt Mock.study_prompt
         Mock.llm_down Mock.wiki_empty Mock.json_loads "2025-01-01T00:00:00"
         (Mock.body_with_prompt "   "))
  = (Returns (Failure "Please provide a learning prompt"), []).
Proof.
  apply (blank_prompt_rejected Mock.parsing_prompt Mock.study_prompt
           Mock.llm_down Mock.wiki_empty Mock.json_loads
           "2025-01-01T00:00:00" [("prompt", VStr "   ")] "   ").
  - reflexivity.
  - reflexivity.
Defined.

(** C6, at a source that has no page for any term. *)
Lemma no_context_aborts_witness :
  exists err l2,
    fetch_wikipedia_context Mock.wiki_empty
      (VList [VStr "mitosis"; VStr "cell cycle"]) (VStr "mitosis")
      [LlmGenerate (Mock.parsing_prompt "learn about mitosis")]
    = (Returns (None, Some err), l2)
    /\ (err = "No relevant Wikipedia content found"
        \/ exists e, err = "Error fetching Wikipedia data: " ++ e)
    /\ run (generate_study_material Mock.parsing_prompt Mock.study_prompt
              (Mock.llm_says "Sure. {mitosis}") Mock.wiki_empty
              Mock.json_loads "2025-01-01T00:00:00"
              (Returns (VDict [("prompt", VStr " learn about mitosis ")])))
       = (Returns (Failure err), l2)
    /\ existsb is_synthesizer_call l2 = false.
Proof.
  apply (no_context_aborts Mock.parsing_prompt Mock.study_prompt
           (Mock.llm_says "Sure. {mitosis}") Mock.wiki_empty Mock.json_loads
           "2025-01-01T00:00:00" [("prompt", VStr " learn about mitosis ")]
           " learn about mitosis " Mock.mitosis_info
           [LlmGenerate (Mock.parsing_prompt "learn about mitosis")]
           (VList [VStr "mitosis"; VStr "cell cycle"]) (VStr "mitosis")).
  - reflexivity.
  - vm_compute. discriminate.
  - vm_compute. reflexivity.
  - reflexivity.
  - reflexivity.
  - intros term _. reflexivity.
Defined.

(** C9, at a model that answers with the empty object. *)
Lemma unvalidated_json_server_error_witness :
  fst (run (parse_learning_request Mock.parsing_prompt (Mock.llm_says "{}")
              Mock.json_loads (PyStr.strip "learn about mitosis")))
  = Returns (Some [], None)
  /\ exists key,
      (key = "keywords" \/ key = "main_topic")
      /\ dict_lookup key [] = None
      /\ fst (run (generate_study_material Mock.parsing_prompt
                     Mock.study_prompt (Mock.llm_says "{}")
                     (Mock.wiki_sized 120) Mock.json_loads
                     "2025-01-01T00:00:00"
                     (Mock.body_with_prompt "learn about mitosis")))
         = Returns (Failure ("Server error: " ++ squote key)).
Proof.
  apply (unvalidated_json_server_error Mock.parsing_prompt Mock.study_prompt
           (Mock.llm_says "{}") (Mock.wiki_sized 120) Mock.json_loads
           "2025-01-01T00:00:00" [("prompt", VStr "learn about mitosis")]
           "learn about mitosis" {| text := Returns "{}" |} "{}" "{}" []).
  - reflexivity.
  - vm_compute. discriminate.
  - reflexivity.
  - reflexivity.
  - reflexivity.
  - reflexivity.
  - left. reflexivity.
Defined.

Example empty_object_server_error :
  fst (run (generate_study_material Mock.parsing_prompt Mock.study_prompt
              (Mock.llm_says "{}") (Mock.wiki_sized 120) Mock.json_loads
              "2025-01-01T00:00:00"
              (Mock.body_with_prompt "learn about mitosis")))
  = Returns (Failure "Server error: 'keywords'").
Proof. vm_compute. reflexivity. Qed.

(** C10, at the run that answers "learn about mitosis". *)
Lemma success_lists_sources_witness :
  1 <= List.length ["mitosis"; "mitosis"] <= 2
  /\ ["mitosis"; "mitosis"]
     = map title
         (flat_map (contexts_for (Mock.wiki_sized 120))
            (queried
               [LlmGenerate (Mock.parsing_prompt "learn about mitosis");
                WikiPage (VStr "mitosis"); WikiPage (VStr "mitosis");
                CallSynthesizer;
                LlmGenerate (Mock.study_prompt "learn about mitosis"
                               (VStr "mitosis") (VStr "Biology")
                               (VStr "cell division") (VStr "beginner") [])]))
  /\ exists info keywords main_topic l0 contexts l1,
      Some Mock.mitosis_info = Some info
      /\ dict_lookup "keywords" info = Some keywords
      /\ dict_lookup "main_topic" info = Some main_topic
      /\ fetch_wikipedia_context (Mock.wiki_sized 120) keywords main_topic l0
         = (Returns (Some contexts, None), l1)
      /\ queried l0 = []
      /\ queried l1
         = queried
             [LlmGenerate (Mock.parsing_prompt "learn about mitosis");
              WikiPage (VStr "mitosis"); WikiPage (VStr "mitosis");
              CallSynthesizer;
              LlmGenerate (Mock.study_prompt "learn about mitosis"
                             (VStr "mitosis") (VStr "Biology")
                             (VStr "cell division") (VStr "beginner") [])]
      /\ contexts
         = flat_map (contexts_for (Mock.wiki_sized 120))
             (queried
                [LlmGenerate (Mock.parsing_prompt "learn about mitosis");
                 WikiPage (VStr "mitosis"); WikiPage (VStr "mitosis");
                 CallSynthesizer;
                 LlmGenerate (Mock.study_prompt "learn about mitosis"
                                (VStr "mitosis") (VStr "Biology")
                                (VStr "cell division") (VStr "beginner") [])])
      /\ ["mitosis"; "mitosis"] = map title contexts.
Proof.
  apply (success_lists_sources Mock.parsing_prompt Mock.study_prompt
           (Mock.llm_says "Sure. {mitosis}") (Mock.wiki_sized 120)
           Mock.json_loads "2025-01-01T00:00:00"
           (Mock.body_with_prompt "learn about mitosis")
           (Some "Sure. {mitosis}") (Some Mock.mitosis_info)
           ["mitosis"; "mitosis"] "2025-01-01T00:00:00"
           [LlmGenerate (Mock.parsing_prompt "learn about mitosis");
            WikiPage (VStr "mitosis"); WikiPage (VStr "mitosis");
            CallSynthesizer;
            LlmGenerate (Mock.study_prompt "learn about mitosis"
                           (VStr "mitosis") (VStr "Biology")
                           (VStr "cell division") (VStr "beginner") [])]).
  vm_compute. reflexivity.
Defined.

(** ** More on the Domain Classifier *)

(** No character of [s] is white space. *)
Fixpoint no_space (s : string) : bool :=
  match s with
  | EmptyString => true
  | String c s' => negb (PyStr.isspace c) && no_space s'
  end.

Lemma lower_char_idempotent (c : ascii) :
  PyStr.lower_char (PyStr.lower_char c) = PyStr.lower_char c.
Proof.
  destruct c as [b0 b1 b2 b3 b4 b5 b6 b7].
  destruct b0, b1, b2, b3, b4, b5, b6, b7; reflexivity.
Qed.

Lemma lower_idempotent (s : string) :
  PyStr.lower (PyStr.lower s) = PyStr.lower s.
Proof.
  induction s as [|c s IH]; simpl; [reflexivity|].
  now rewrite lower_char_idempotent, IH.
Qed.

Lemma lower_append (a b : string) :
  PyStr.lower (a ++ b) = PyStr.lower a ++ PyStr.lower b.
Proof. induction a as [|c a IH]; simpl; [reflexivity | now rewrite IH]. Qed.

(** A part of a lower-case text is lower-case. *)
Lemma lower_fixed_part (pre mid post : string) :
  PyStr.lower (pre ++ mid ++ post) = pre ++ mid ++ post ->
  PyStr.lower mid = mid.
Proof.
  induction pre as [|c pre IH]; simpl.
  - revert post. induction mid as [|c mid IH]; intros post H; [reflexivity|].
    simpl in *. injection H as C H. rewrite C. f_equal. exact (IH post H).
  - intros H. injection H as _ H. exact (IH H).
Qed.

Lemma no_space_append (a b : string) :
  no_space (a ++ b) = no_space a && no_space b.
Proof.
  induction a as [|c a IH]; simpl; [reflexivity|].
  now rewrite IH, andb_assoc.
Qed.

Lemma in_firstn {A : Type} (n : nat) (l : list A) (x : A) :
  In x (firstn n l) -> In x l.
Proof.
  revert l. induction n as [|n IH]; intros [|y l] H; simpl in *; try tauto.
  destruct H as [H|H]; [now left | right; now apply IH].
Qed.

(** The tokens [split] gives: each is a non-empty run without white space
    that occurs in the text. *)
Lemma split_from_tokens (s : string) :
  forall cur token,
    no_space cur = true ->
    In token (PyStr.split_from cur s) ->
    token <> "" /\ no_space token = true /\ occurs_in token (cur ++ s).
Proof.
  induction s as [|c s IH]; intros cur token N I.
  - simpl in I. destruct cur as [|d cur]; simpl in I; [tauto|].
    destruct I as [<-|[]]. repeat split; [discriminate | exact N |].
    exists "", "". simpl. now rewrite !append_empty_r.
  - simpl in I. destruct (PyStr.isspace c) eqn:C.
    + assert (Rest : In token (PyStr.split_from "" s) ->
                     token <> "" /\ no_space token = true
                     /\ occurs_in token (cur ++ String c s)).
      { intros J. destruct (IH "" token eq_refl J) as (T1 & T2 & pre & post & E).
        repeat split; trivial.
        exists (cur ++ String c pre), post. simpl in E. rewrite E.
        now rewrite append_assoc. }
      destruct cur as [|d cur]; simpl in I; [now apply Rest|].
      destruct I as [<-|I]; [|now apply Rest].
      repeat split; [discriminate | exact N |].
      exists "", (String c s). reflexivity.
    + assert (N' : no_space (cur ++ String c "") = true).
      { rewrite no_space_append, N. simpl. now rewrite C. }
      destruct (IH _ token N' I) as (T1 & T2 & pre & post & E).
      repeat split; trivial. exists pre, post.
      rewrite <- E, append_assoc. reflexivity.
Qed.

(** X1: every keyword of the fallback record is a non-empty lower-case
    word without white space that occurs in the lower-cased prompt. *)
Theorem fallback_keywords_are_words (user_prompt keyword : string) :
  In keyword (keywords_of user_prompt) ->
  keyword <> ""
  /\ no_space keyword = true
  /\ PyStr.lower keyword = keyword
  /\ occurs_in keyword (PyStr.lower user_prompt).
Proof.
  intros I. unfold keywords_of in I. apply in_firstn in I.
  destruct (split_from_tokens _ "" keyword eq_refl I) as (T1 & T2 & O).
  repeat split; trivial.
  destruct O as (pre & post & E). simpl in E.
  apply (lower_fixed_part pre keyword post).
  rewrite <- E. apply lower_idempotent.
Qed.

Lemma fallback_keywords_are_words_witness :
  "holes" <> ""
  /\ no_space "holes" = true
  /\ PyStr.lower "holes" = "holes"
  /\ occurs_in "holes" (PyStr.lower "Teach me about Black Holes").
Proof.
  apply (fallback_keywords_are_words "Teach me about Black Holes" "holes").
  vm_compute. tauto.
Defined.

(** X2: classification does not look at letter case: the lower-cased
    prompt gets the same domain and the same keywords as the prompt. *)
Theorem fallback_ignores_case (user_prompt : string) :
  dict_lookup "subject_domain" (fallback_parse (PyStr.lower user_prompt))
  = dict_lookup "subject_domain" (fallback_parse user_prompt)
  /\ dict_lookup "keywords" (fallback_parse (PyStr.lower user_prompt))
     = dict_lookup "keywords" (fallback_parse user_prompt).
Proof.
  split.
  - change (Some (VStr (identify_domain common_domains
                          (PyStr.lower (PyStr.lower user_prompt))))
            = Some (VStr (identify_domain common_domains
                            (PyStr.lower user_prompt)))).
    now rewrite lower_idempotent.
  - change (Some (VList (map VStr (keywords_of (PyStr.lower user_prompt))))
            = Some (VList (map VStr (keywords_of user_prompt)))).
    unfold keywords_of. now rewrite lower_idempotent.
Qed.

(** ** White space around the topic *)

Lemma lstrip_idempotent (s : string) :
  PyStr.lstrip (PyStr.lstrip s) = PyStr.lstrip s.
Proof.
  induction s as [|c s IH]; [reflexivity|]. simpl.
  destruct (PyStr.isspace c) eqn:C; [exact IH|]. simpl. now rewrite C.
Qed.

Lemma lstrip_head (s : string) (c : ascii) (rest : string) :
  PyStr.lstrip s = String c rest -> PyStr.isspace c = false.
Proof.
  induction s as [|d s IH]; simpl; [discriminate|].
  destruct (PyStr.isspace d) eqn:D; [exact IH|].
  intros H. injection H as <- _. exact D.
Qed.

Lemma lstrip_suffix (s : string) : exists pre, s = pre ++ PyStr.lstrip s.
Proof.
  induction s as [|c s [pre IH]]; [now exists ""|]. simpl.
  destruct (PyStr.isspace c).
  - exists (String c pre). simpl. now rewrite <- IH.
  - now exists "".
Qed.

Lemma rstrip_idempotent (s : string) :
  PyStr.rstrip (PyStr.rstrip s) = PyStr.rstrip s.
Proof.
  induction s as [|c s IH]; [reflexivity|]. simpl.
  destruct (PyStr.rstrip s) as [|d r] eqn:R.
  - destruct (PyStr.isspace c) eqn:C; simpl; [reflexivity | now rewrite C].
  - cbn [PyStr.rstrip]. cbn [PyStr.rstrip] in IH. now rewrite IH.
Qed.

Lemma rstrip_last (s front : string) (c : ascii) :
  PyStr.rstrip s = front ++ String c "" -> PyStr.isspace c = false.
Proof.
  revert front. induction s as [|d s IH]; intros front; simpl.
  - destruct front; discriminate.
  - destruct (PyStr.rstrip s) as [|e r] eqn:R.
    + destruct (PyStr.isspace d) eqn:D.
      * destruct front; discriminate.
      * destruct front as [|f front]; simpl; intros H.
        -- injection H as <-. exact D.
        -- destruct front; discriminate.
    + destruct front as [|f front]; simpl; intros H; [discriminate|].
      injection H as _ H. exact (IH front H).
Qed.

Lemma strip_commutes (s : string) :
  PyStr.rstrip (PyStr.lstrip s) = PyStr.lstrip (PyStr.rstrip s).
Proof.
  induction s as [|c s IH]; [reflexivity|].
  cbn [PyStr.lstrip]. destruct (PyStr.isspace c) eqn:C.
  - rewrite IH. cbn [PyStr.rstrip].
    destruct (PyStr.rstrip s) as [|d r]; rewrite ?C; simpl; now rewrite ?C.
  - cbn [PyStr.rstrip].
    destruct (PyStr.rstrip s) as [|d r]; rewrite ?C; simpl; now rewrite C.
Qed.

Lemma strip_idempotent (s : string) :
  PyStr.strip (PyStr.strip s) = PyStr.strip s.
Proof.
  unfold PyStr.strip.
  now rewrite <- strip_commutes, lstrip_idempotent, strip_commutes,
    rstrip_idempotent.
Qed.

(** X3: the topic of the fallback record is trimmed: stripping it again
    changes nothing, and neither its first nor its last character is white
    space. *)
Theorem fallback_topic_trimmed (user_prompt : string) :
  PyStr.strip (main_topic_of user_prompt) = main_topic_of user_prompt
  /\ (forall c rest,
        main_topic_of user_prompt = String c rest -> PyStr.isspace c = false)
  /\ (forall front c,
        main_topic_of user_prompt = front ++ String c "" ->
        PyStr.isspace c = false).
Proof.
  unfold main_topic_of. split; [apply strip_idempotent|]. split.
  - intros c rest H. exact (lstrip_head _ _ _ H).
  - intros front c H. unfold PyStr.strip in H.
    destruct (lstrip_suffix (PyStr.rstrip (without_fillers user_prompt)))
      as [pre E].
    rewrite H, <- append_assoc in E. exact (rstrip_last _ _ _ E).
Qed.

(** ** Prompts without a filler phrase *)

Lemma occurs_in_tail (sub : string) (c : ascii) (s : string) :
  occurs_in sub s -> occurs_in sub (String c s).
Proof.
  intros (pre & post & E). exists (String c pre), post. simpl. now rewrite E.
Qed.

Lemma replace_from_absent (old new s : string) :
  ~ occurs_in old s -> PyStr.replace_from old new 0 s = s.
Proof.
  induction s as [|c s IH]; intros N; [reflexivity|].
  cbn [PyStr.replace_from].
  destruct (prefix old (String c s)) eqn:P.
  - exfalso. apply N. apply prefix_spec in P. destruct P as [rest E].
    now exists "", rest.
  - rewrite IH; [reflexivity|]. intros O. apply N. now apply occurs_in_tail.
Qed.

(** X4: a prompt in which neither filler phrase occurs, letter for letter,
    has the stripped prompt as its topic. *)
Theorem fallback_topic_without_fillers (user_prompt : string) :
  ~ occurs_in "teach me about" user_prompt ->
  ~ occurs_in "learn about" user_prompt ->
  dict_lookup "main_topic" (fallback_parse user_prompt)
  = Some (VStr (PyStr.strip user_prompt)).
Proof.
  intros T L.
  change (Some (VStr (main_topic_of user_prompt))
          = Some (VStr (PyStr.strip user_prompt))).
  unfold main_topic_of, without_fillers, PyStr.replace. cbn [PyStr.is_empty].
  rewrite (replace_from_absent _ _ _ T), (replace_from_absent _ _ _ L).
  reflexivity.
Qed.

Lemma fallback_topic_without_fillers_witness :
  dict_lookup "main_topic" (fallback_parse " Teach me about DNA ")
  = Some (VStr (PyStr.strip " Teach me about DNA ")).
Proof.
  apply (fallback_topic_without_fillers " Teach me about DNA ");
    intros O; apply contains_spec in O; vm_compute in O; discriminate.
Defined.

(** ** More on the search for the JSON text *)

(** The character [c] occurs in [s]. *)
Fixpoint mentions (c : ascii) (s : string) : bool :=
  match s with
  | EmptyString => false
  | String d s' => Ascii.eqb d c || mentions c s'
  end.

Lemma upto_last_close_none_mentions (s : string) :
  upto_last_close s = None -> mentions close_brace s = false.
Proof.
  induction s as [|c s IH]; simpl; [reflexivity|].
  destruct (upto_last_close s); [discriminate|].
  destruct (Ascii.eqb c close_brace); [discriminate|].
  intros _. now apply IH.
Qed.

Lemma upto_last_close_greedy (s r : string) :
  upto_last_close s = Some r ->
  exists mid post,
    r = mid ++ "}" /\ s = r ++ post /\ mentions close_brace post = false.
Proof.
  revert r. induction s as [|c s IH]; intros r H; simpl in H; [discriminate|].
  destruct (upto_last_close s) as [r'|] eqn:U.
  - injection H as <-. destruct (IH r' eq_refl) as (mid & post & E1 & E2 & N).
    exists (String c mid), post. simpl. repeat split; congruence.
  - destruct (Ascii.eqb c close_brace) eqn:C; [|discriminate].
    injection H as <-. apply Ascii.eqb_eq in C. subst c. unfold close_brace.
    exists "", s. repeat split. now apply upto_last_close_none_mentions.
Qed.

(** X5: a match of the search runs from the first opening brace of the
    text to its last closing brace: no opening brace comes before it and no
    closing brace after it. *)
Theorem re_search_first_to_last (s group : string) :
  re_search_braces s = Some group ->
  exists pre mid post,
    group = "{" ++ mid ++ "}"
    /\ s = pre ++ group ++ post
    /\ mentions open_brace pre = false
    /\ mentions close_brace post = false.
Proof.
  revert group. induction s as [|c s IH]; intros group H; simpl in H;
    [discriminate|].
  destruct (Ascii.eqb c open_brace) eqn:C.
  - destruct (upto_last_close s) as [r|] eqn:U; [|discriminate].
    injection H as <-. apply Ascii.eqb_eq in C. subst c. unfold open_brace.
    destruct (upto_last_close_greedy _ _ U) as (mid & post & E1 & E2 & N).
    exists "", mid, post. simpl. repeat split; congruence.
  - destruct (IH group H) as (pre & mid & post & E1 & E2 & N1 & N2).
    exists (String c pre), mid, post. repeat split; trivial.
    + cbn [append]. now rewrite <- E2.
    + cbn [mentions]. now rewrite C, N1.
Qed.

Lemma re_search_first_to_last_witness :
  exists pre mid post,
    "{a} and {b}" = "{" ++ mid ++ "}"
    /\ "ok {a} and {b} end" = pre ++ "{a} and {b}" ++ post
    /\ mentions open_brace pre = false
    /\ mentions close_brace post = false.
Proof.
  apply (re_search_first_to_last "ok {a} and {b} end" "{a} and {b}").
  reflexivity.
Defined.

(** ** More on the Request Parser *)

Section ParserMore.

Variable parsing_prompt : string -> string.
Variable generate_content : string -> outcome llm_response.
Variable json_loads : string -> outcome dict.

Local Abbreviation parse :=
  (parse_learning_request parsing_prompt generate_content json_loads).

(** X6: when the response has a braced part that [json.loads] rejects, the
    parser returns no record and the message "Error parsing request: ..."
    of the decoding error; the fallback is not called. *)
Theorem parser_rejects_invalid_json
        (user_prompt : string) (response : llm_response)
        (response_text group e : string) :
  generate_content (parsing_prompt user_prompt) = Returns response ->
  text response = Returns response_text ->
  re_search_braces response_text = Some group ->
  json_loads group = Raises e ->
  run (parse user_prompt)
  = (Returns (None, Some ("Error parsing request: " ++ e)),
     [LlmGenerate (parsing_prompt user_prompt)]).
Proof.
  intros G T R J.
  unfold run, parse_learning_request, try_except, bind, emit, lift, ret.
  cbn [app]. rewrite G, T, R, J. reflexivity.
Qed.

(** X7: the parser never raises and calls the model exactly once, first;
    it returns either a record and no error, or no record and a message
    that starts with "Error parsing request: "; the only other call it can
    make is the one to the fallback. *)
Theorem parser_outcomes (user_prompt : string) :
  exists result l,
    run (parse user_prompt)
    = (Returns result, LlmGenerate (parsing_prompt user_prompt) :: l)
    /\ (l = [] \/ l = [CallFallback user_prompt])
    /\ ((exists info, result = (Some info, None))
        \/ (exists e, result = (None, Some ("Error parsing request: " ++ e))
                      /\ l = [])).
Proof.
  unfold run, parse_learning_request, try_except, bind, emit, lift, ret.
  cbn [app].
  destruct (generate_content (parsing_prompt user_prompt)) as [response|e].
  - destruct (text response) as [response_text|e].
    + destruct (re_search_braces response_text) as [group|].
      * destruct (json_loads group) as [info|e]; eexists; exists [];
          (split; [reflexivity|]); (split; [now left|]); eauto.
      * eexists; exists [CallFallback user_prompt];
          (split; [reflexivity|]); (split; [now right|]); eauto.
    + eexists; exists []; (split; [reflexivity|]); (split; [now left|]); eauto.
  - eexists; exists []; (split; [reflexivity|]); (split; [now left|]); eauto.
Qed.

End ParserMore.

Lemma parser_rejects_invalid_json_witness :
  run (parse_learning_request Mock.parsing_prompt
         (Mock.llm_says "{not json}") Mock.json_loads "learn about cells")
  = (Returns (None,
              Some ("Error parsing request: "
                    ++ "Expecting property name enclosed in double quotes")),
     [LlmGenerate (Mock.parsing_prompt "learn about cells")]).
Proof.
  apply (parser_rejects_invalid_json Mock.parsing_prompt
           (Mock.llm_says "{not json}") Mock.json_loads "learn about cells"
           {| text := Returns "{not json}" |} "{not json}" "{not json}").
  - reflexivity.
  - reflexivity.
  - reflexivity.
  - reflexivity.
Defined.

(** ** More on the Reference Fetcher *)

Lemma length_lstrip (s : string) :
  String.length (PyStr.lstrip s) <= String.length s.
Proof.
  induction s as [|c s IH]; simpl; [lia|].
  destruct (PyStr.isspace c); simpl; lia.
Qed.

Lemma length_rstrip (s : string) :
  String.length (PyStr.rstrip s) <= String.length s.
Proof.
  induction s as [|c s IH]; simpl; [lia|].
  destruct (PyStr.rstrip s); [destruct (PyStr.isspace c)|]; simpl in *; lia.
Qed.

Lemma length_strip (s : string) :
  String.length (PyStr.strip s) <= String.length s.
Proof.
  unfold PyStr.strip.
  pose proof (length_lstrip (PyStr.rstrip s)). pose proof (length_rstrip s).
  lia.
Qed.

Lemma search_terms_at_most_four (keywords main_topic : value) :
  List.length (search_terms_of keywords main_topic) <= 4.
Proof.
  destruct keywords; cbn [search_terms_of List.length]; try lia.
  pose proof (firstn_le_length 3 l). lia.
Qed.

Section FetcherMore.

Variable wiki : value -> outcome wiki_page.

Local Abbreviation fetch := (fetch_wikipedia_context wiki).

(** X8: the fetcher never raises; it returns either one or two contexts
    and no error, or no contexts and a non-empty message.  It queries at
    most four terms. *)
Theorem fetcher_outcomes (keywords main_topic : value) :
  exists result l,
    run (fetch keywords main_topic) = (Returns result, l)
    /\ List.length (queried l) <= 4
    /\ ((exists contexts,
            result = (Some contexts, None)
            /\ 1 <= List.length contexts <= 2)
        \/ (exists err, result = (None, Some err) /\ err <> "")).
Proof.
  destruct (fetch_inv wiki keywords main_topic [])
    as (qs & rest & result & R & E & _ & Q).
  exists result, (map WikiPage qs). split; [exact R|]. split.
  - rewrite queried_wiki_pages.
    pose proof (search_terms_at_most_four keywords main_topic) as B.
    rewrite E, length_app in B. lia.
  - destruct Q as [[Q B]|[[Q _]|[e Q]]].
    + left. now exists (flat_map (contexts_for wiki) qs).
    + right. exists "No relevant Wikipedia content found".
      split; [exact Q | discriminate].
    + right. exists ("Error fetching Wikipedia data: " ++ e).
      split; [exact Q | discriminate].
Qed.

(** X9: keywords that are not a list (a string, a number, an object,
    [None]) make the fetcher return the message of the exception, without
    querying anything. *)
Theorem fetcher_rejects_non_list (keywords main_topic : value) :
  (forall l, keywords <> VList l) ->
  exists e,
    run (fetch keywords main_topic)
    = (Returns (None, Some ("Error fetching Wikipedia data: " ++ e)), []).
Proof.
  intros N. unfold run, fetch_wikipedia_context, try_except, bind.
  destruct keywords as [ | b | z | r | s | kws | d ];
    cbn [slice3 list_plus raise ret]; try (eexists; reflexivity).
  now destruct (N kws).
Qed.

(** X10: the content of an accepted context has more than 100
    characters. *)
Theorem stored_content_above_100
        (keywords main_topic : value) (contexts : list context)
        (err : option string) (l : log) (ctx : context) :
  run (fetch keywords main_topic) = (Returns (Some contexts, err), l) ->
  In ctx contexts ->
  100 < String.length (content ctx).
Proof.
  unfold run. intros H I.
  destruct (fetch_inv wiki keywords main_topic [])
    as (qs & rest & result & R & E & P & Q).
  rewrite R in H. injection H as -> _.
  destruct Q as [[Q B]|[[Q _]|[e Q]]]; try discriminate.
  injection Q as Q _. rewrite Q in I.
  apply in_flat_map in I. destruct I as (term & I & C).
  apply contexts_for_inv in C.
  destruct C as (page & summary & W & X & S & U & T & F & K).
  rewrite K. unfold usable_summary in U.
  apply andb_true_iff in U. destruct U as [_ U]. apply Nat.ltb_lt in U.
  pose proof (length_strip summary) as L.
  destruct (Nat.le_gt_cases (String.length summary) 1500) as [A|A].
  - rewrite limit_summary_short by exact A. lia.
  - destruct (limit_summary_long summary A) as [_ Z]. lia.
Qed.

(** X11: when the keywords are a list, the first term the fetcher queries
    is the main topic. *)
Theorem fetcher_queries_topic_first
        (keywords : list value) (main_topic : value) :
  exists later,
    queried (snd (run (fetch (VList keywords) main_topic)))
    = main_topic :: later.
Proof.
  unfold run, fetch_wikipedia_context, try_except, bind.
  cbn [slice3 list_plus ret].
  destruct (fetch_loop_step wiki main_topic (firstn 3 keywords) [] [])
    as [[e R]|R]; [simpl; lia | |].
  - rewrite R. cbn [app snd ret queried]. now exists [].
  - rewrite R.
    destruct (fetch_loop wiki (firstn 3 keywords)
                ([] ++ contexts_for wiki main_topic)%list
                ([] ++ [WikiPage main_topic])%list) as [o l'] eqn:L.
    apply fetch_loop_inv in L.
    + destruct L as (qs & rest & _ & E & _ & _). subst l'. exists qs.
      destruct o as [[|c cs]|e]; cbn [ret snd app queried];
        now rewrite queried_wiki_pages.
    + pose proof (contexts_for_length wiki main_topic). simpl. lia.
Qed.

(** A search term whose lookup raises nothing and gives no usable page:
    the page does not exist, or its stripped summary has at most 100
    characters. *)
Definition unusable (term : value) : Prop :=
  exists page,
    wiki term = Returns page
    /\ (page_exists page = Returns false
        \/ (page_exists page = Returns true
            /\ exists summary,
                page_summary page = Returns summary
                /\ String.length (PyStr.strip summary) <= 100)).

Lemma fetch_loop_all_unusable (terms : list value) (l : log) :
  Forall unusable terms ->
  fetch_loop wiki terms [] l = (Returns [], (l ++ map WikiPage terms)%list).
Proof.
  intros F. revert l. induction F as [|term terms U F IH]; intros l.
  - cbn. now rewrite app_nil_r.
  - cbn [fetch_loop List.length Nat.leb]. unfold bind, emit, lift.
    destruct U as (page & W & [X|(X & summary & S & B)]); rewrite W, X.
    + rewrite IH, <- app_assoc. reflexivity.
    + rewrite S. unfold usable_summary.
      destruct (Nat.ltb_spec 100 (String.length (PyStr.strip summary)));
        [lia|].
      rewrite andb_false_r, IH, <- app_assoc. reflexivity.
Qed.

(** X12: when every search term is looked up without an exception and none
    has a usable page, the fetcher queries all of them, in order, and
    returns "No relevant Wikipedia content found". *)
Theorem fetcher_exhausts_terms (keywords : list value) (main_topic : value) :
  Forall unusable (main_topic :: firstn 3 keywords) ->
  run (fetch (VList keywords) main_topic)
  = (Returns (None, Some "No relevant Wikipedia content found"),
     map WikiPage (main_topic :: firstn 3 keywords)).
Proof.
  intros F. unfold run, fetch_wikipedia_context, try_except, bind.
  cbn [slice3 list_plus ret]. now rewrite (fetch_loop_all_unusable _ [] F).
Qed.

(** A term whose page object and whose [exists()] came back. *)
Definition looked_up (term : value) : Prop :=
  exists page found,
    wiki term = Returns page /\ page_exists page = Returns found.

Lemma fetch_loop_returns_looked_up (terms : list value) :
  forall (contexts : list context) (l : log) cs l',
    fetch_loop wiki terms contexts l = (Returns cs, l') ->
    exists qs,
      l' = (l ++ map WikiPage qs)%list /\ Forall looked_up qs.
Proof.
  induction terms as [|term terms IH]; intros contexts l cs l' H.
  - cbn in H. injection H as _ <-. exists []. cbn. now rewrite app_nil_r.
  - cbn [fetch_loop] in H.
    destruct (2 <=? List.length contexts)%nat.
    { cbn in H. injection H as _ <-. exists []. cbn. now rewrite app_nil_r. }
    unfold bind, emit, lift in H.
    destruct (wiki term) as [page|e] eqn:W; [|discriminate].
    assert (Step : forall contexts',
               fetch_loop wiki terms contexts' (l ++ [WikiPage term])%list
               = (Returns cs, l') ->
               forall found, page_exists page = Returns found ->
               exists qs,
                 l' = (l ++ map WikiPage qs)%list /\ Forall looked_up qs).
    { intros contexts' R found X. apply IH in R. destruct R as (qs & E & F).
      exists (term :: qs). split.
      - rewrite E, <- app_assoc. reflexivity.
      - constructor; [now exists page, found | exact F]. }
    destruct (page_exists page) as [[|]|e] eqn:X; [| |discriminate].
    + destruct (page_summary page) as [summary|e]; [|discriminate].
      destruct (usable_summary summary).
      * destruct (page_title page) as [t|e]; [|discriminate].
        destruct (page_fullurl page) as [u|e]; [|discriminate].
        exact (Step _ H true eq_refl).
      * exact (Step _ H true eq_refl).
    + exact (Step _ H false eq_refl).
Qed.

(** X13: contexts are returned only when the lookup of every queried term
    went through: an exception at any term makes the fetcher return its
    error, whatever had been accepted before it. *)
Theorem fetcher_needs_every_lookup
        (keywords main_topic : value) (contexts : list context)
        (err : option string) (l : log) (term : value) :
  run (fetch keywords main_topic) = (Returns (Some contexts, err), l) ->
  In term (queried l) ->
  looked_up term.
Proof.
  unfold run, fetch_wikipedia_context, try_except, bind.
  destruct keywords as [ | b | z | r | s | kws | d ];
    cbn [slice3 list_plus raise ret]; try discriminate.
  destruct (fetch_loop wiki (main_topic :: firstn 3 kws) [] [])
    as [[cs|e] l'] eqn:R; [|discriminate].
  apply fetch_loop_returns_looked_up in R. destruct R as (qs & E & F).
  cbn [app] in E. subst l'.
  destruct cs as [|c cs]; cbn [ret]; intros H; [discriminate|].
  injection H as _ _ <-. rewrite queried_wiki_pages.
  intros I. rewrite Forall_forall in F. now apply F.
Qed.

End FetcherMore.

Lemma fetcher_rejects_non_list_witness :
  exists e,
    run (fetch_wikipedia_context (Mock.wiki_sized 120)
           (VStr "mitosis, cell cycle") (VStr "mitosis"))
    = (Returns (None, Some ("Error fetching Wikipedia data: " ++ e)), []).
Proof.
  apply (fetcher_rejects_non_list (Mock.wiki_sized 120)
           (VStr "mitosis, cell cycle") (VStr "mitosis")).
  intros l. discriminate.
Defined.

Lemma stored_content_above_100_witness :
  100 < String.length (content Mock.long_context).
Proof.
  apply (stored_content_above_100 (Mock.wiki_sized 1501) (VList [])
           (VStr "Mitosis") [Mock.long_context] None
           [WikiPage (VStr "Mitosis")] Mock.long_context).
  - exact long_summary_run.
  - left. reflexivity.
Defined.

Lemma fetcher_exhausts_terms_witness :
  run (fetch_wikipedia_context (Mock.wiki_sized 100)
         (VList [VStr "cell"; VStr "division"; VStr "phase"; VStr "spindle"])
         (VStr "Mitosis"))
  = (Returns (None, Some "No relevant Wikipedia content found"),
     map WikiPage
       (VStr "Mitosis"
        :: firstn 3 [VStr "cell"; VStr "division"; VStr "phase";
                     VStr "spindle"])).
Proof.
  apply (fetcher_exhausts_terms (Mock.wiki_sized 100)
           [VStr "cell"; VStr "division"; VStr "phase"; VStr "spindle"]
           (VStr "Mitosis")).
  repeat constructor;
    (eexists; split; [reflexivity|]; right; split; [reflexivity|];
     eexists; split; [reflexivity|]; vm_compute; repeat constructor).
Defined.

Lemma fetcher_needs_every_lookup_witness :
  looked_up (Mock.wiki_sized 1501) (VStr "Mitosis").
Proof.
  apply (fetcher_needs_every_lookup (Mock.wiki_sized 1501) (VList [])
           (VStr "Mitosis") [Mock.long_context] None
           [WikiPage (VStr "Mitosis")] (VStr "Mitosis")).
  - exact long_summary_run.
  - left. reflexivity.
Defined.

(** ** The Document Synthesizer, and the handler as a whole *)

Definition is_llm_call (e : event) : bool :=
  match e with LlmGenerate _ => true | _ => false end.

(** The keys of the record that the two later stages read. *)
Definition keys_read : list string :=
  ["keywords"; "main_topic"; "subject_domain"; "specific_focus";
   "complexity_level"].

(** The calls the parser can leave in the log. *)
Definition parser_calls (l : log) : Prop :=
  l = []
  \/ exists prompt,
      l = [LlmGenerate prompt]
      \/ exists user_prompt, l = [LlmGenerate prompt; CallFallback user_prompt].

(** The calls the synthesizer can leave in the log. *)
Definition synthesizer_calls (l : log) : Prop :=
  l = [] \/ l = [CallSynthesizer]
  \/ exists prompt, l = [CallSynthesizer; LlmGenerate prompt].

Lemma error_of_some (err : option string) (msg : string) :
  error_of err = Some msg -> err = Some msg /\ msg <> "".
Proof.
  destruct err as [[|c m]|]; simpl; try discriminate.
  intros H. injection H as <-. split; [reflexivity | discriminate].
Qed.

Lemma filter_wiki_pages (f : event -> bool) (qs : list value) :
  (forall term, f (WikiPage term) = false) ->
  filter f (map WikiPage qs) = [].
Proof.
  intros N. induction qs as [|q qs IH]; simpl; [reflexivity|].
  now rewrite N.
Qed.

(** What a request body can be for the handler to fail before any stage:
    reading it raises, it is not an object, or its prompt is not a
    string.  The second component is the message of the exception. *)
Inductive malformed : outcome value -> string -> Prop :=
| body_unreadable e : malformed (Raises e) e
| body_not_object data :
    (forall d, data <> VDict d) ->
    malformed (Returns data) (no_attribute data "get")
| prompt_not_text body prompt :
    dict_lookup "prompt" body = Some prompt ->
    (forall s, prompt <> VStr s) ->
    malformed (Returns (VDict body)) (no_attribute prompt "strip").

Section PipelineFacts.

Variable parsing_prompt : string -> string.
Variable study_prompt :
  string -> value -> value -> value -> value -> list context -> string.
Variable generate_content : string -> outcome llm_response.
Variable wiki : value -> outcome wiki_page.
Variable json_loads : string -> outcome dict.
Variable now_isoformat : string.

Local Abbreviation parse :=
  (parse_learning_request parsing_prompt generate_content json_loads).
Local Abbreviation fetch := (fetch_wikipedia_context wiki).
Local Abbreviation synthesize :=
  (generate_comprehensive_study_material study_prompt generate_content).
Local Abbreviation handler :=
  (generate_study_material parsing_prompt study_prompt generate_content wiki
     json_loads now_isoformat).

Ltac pipeline_steps :=
  cbv beta iota zeta
      delta [generate_study_material run try_except bind lift ret raise
             get_with_default strip_method subscript_opt subscript
             iterate].

Ltac synthesizer_steps :=
  cbv beta iota zeta
      delta [generate_comprehensive_study_material try_except bind emit lift
             ret raise iterate subscript_opt subscript].

Lemma parser_inv (user_prompt : string) :
  exists result l,
    parse user_prompt []
    = (Returns result, LlmGenerate (parsing_prompt user_prompt) :: l)
    /\ (l = [] \/ l = [CallFallback user_prompt])
    /\ ((exists info, result = (Some info, None))
        \/ (exists e, result = (None, Some ("Error parsing request: " ++ e))
                      /\ l = [])).
Proof.
  unfold parse_learning_request, try_except, bind, emit, lift, ret.
  cbn [app].
  destruct (generate_content (parsing_prompt user_prompt)) as [response|e].
  - destruct (text response) as [response_text|e].
    + destruct (re_search_braces response_text) as [group|].
      * destruct (json_loads group) as [info|e]; eexists; exists [];
          (split; [reflexivity|]); (split; [now left|]); eauto.
      * eexists; exists [CallFallback user_prompt];
          (split; [reflexivity|]); (split; [now right|]); eauto.
    + eexists; exists []; (split; [reflexivity|]); (split; [now left|]); eauto.
  - eexists; exists []; (split; [reflexivity|]); (split; [now left|]); eauto.
Qed.

(** What the synthesizer does, from any log: it records its call, and
    either reads the four keys, calls the model and returns its non-empty
    text, or returns a message. *)
Lemma synthesizer_inv (parsed_info : option dict)
      (wikipedia_contexts : option (list context)) (original_prompt : string)
      (l0 : log) :
  exists result l3,
    synthesize parsed_info wikipedia_contexts original_prompt l0
    = (Returns result, (l0 ++ CallSynthesizer :: l3)%list)
    /\ ((exists response_text prompt info,
            result = (Some response_text, None)
            /\ response_text <> ""
            /\ l3 = [LlmGenerate prompt]
            /\ parsed_info = Some info
            /\ dict_lookup "main_topic" info <> None
            /\ dict_lookup "subject_domain" info <> None
            /\ dict_lookup "specific_focus" info <> None
            /\ dict_lookup "complexity_level" info <> None)
        \/ (exists err,
               result = (None, Some err) /\ err <> ""
               /\ (l3 = [] \/ exists prompt, l3 = [LlmGenerate prompt]))).
Proof.
  assert (Stop : forall (e : string) (l3 : log),
             l3 = [] \/ (exists prompt, l3 = [LlmGenerate prompt]) ->
             exists result l3',
               (Returns (A := option string * option string)
                        (None, Some ("Error generating study material: " ++ e)),
                ((l0 ++ [CallSynthesizer]) ++ l3)%list)
               = (Returns result, (l0 ++ CallSynthesizer :: l3')%list)
               /\ ((exists response_text prompt info,
                       result = (Some response_text, None)
                       /\ response_text <> ""
                       /\ l3' = [LlmGenerate prompt]
                       /\ parsed_info = Some info
                       /\ dict_lookup "main_topic" info <> None
                       /\ dict_lookup "subject_domain" info <> None
                       /\ dict_lookup "specific_focus" info <> None
                       /\ dict_lookup "complexity_level" info <> None)
                   \/ (exists err,
                          result = (None, Some err) /\ err <> ""
                          /\ (l3' = []
                              \/ exists prompt, l3' = [LlmGenerate prompt])))).
  { intros e l3 S. eexists. exists l3. split.
    - rewrite <- app_assoc. reflexivity.
    - right. eexists. split; [reflexivity|]. split; [discriminate | exact S]. }
  destruct wikipedia_contexts as [contexts|]; synthesizer_steps;
    [|rewrite <- (app_nil_r (l0 ++ [CallSynthesizer])); apply Stop; now left].
  destruct parsed_info as [info|]; synthesizer_steps;
    [|rewrite <- (app_nil_r (l0 ++ [CallSynthesizer])); apply Stop; now left].
  destruct (dict_lookup "main_topic" info) as [main_topic|] eqn:K1;
    synthesizer_steps;
    [|rewrite <- (app_nil_r (l0 ++ [CallSynthesizer])); apply Stop; now left].
  destruct (dict_lookup "subject_domain" info) as [subject_domain|] eqn:K2;
    synthesizer_steps;
    [|rewrite <- (app_nil_r (l0 ++ [CallSynthesizer])); apply Stop; now left].
  destruct (dict_lookup "specific_focus" info) as [specific_focus|] eqn:K3;
    synthesizer_steps;
    [|rewrite <- (app_nil_r (l0 ++ [CallSynthesizer])); apply Stop; now left].
  destruct (dict_lookup "complexity_level" info) as [complexity_level|] eqn:K4;
    synthesizer_steps;
    [|rewrite <- (app_nil_r (l0 ++ [CallSynthesizer])); apply Stop; now left].
  set (prompt := study_prompt original_prompt main_topic subject_domain
                              specific_focus complexity_level contexts).
  destruct (generate_content prompt) as [response|e];
    [|apply Stop; right; now exists prompt].
  destruct (text response) as [response_text|e];
    [|apply Stop; right; now exists prompt].
  destruct response_text as [|c response_text]; cbn [PyStr.is_empty].
  - eexists. exists [LlmGenerate prompt]. split.
    + rewrite <- app_assoc. reflexivity.
    + right. eexists. split; [reflexivity|]. split; [discriminate|].
      right. now exists prompt.
  - eexists. exists [LlmGenerate prompt]. split.
    + rewrite <- app_assoc. reflexivity.
    + left. exists (String c response_text), prompt, info.
      repeat split; try discriminate; congruence.
Qed.

(** Every run of the handler: it answers, its calls are the parser's,
    then the queries, then the synthesizer's, and the answer is a failure
    with a message or a success built from all three stages. *)
Lemma handler_inv (get_json : outcome value) :
  exists answer l1 qs l3,
    run (handler get_json)
    = (Returns answer, (l1 ++ map WikiPage qs ++ l3)%list)
    /\ parser_calls l1
    /\ List.length qs <= 4
    /\ synthesizer_calls l3
    /\ match answer with
       | Failure e => e <> ""
       | Success study_material parsed_info sources generated_at =>
           (exists response_text,
               study_material = Some response_text /\ response_text <> "")
           /\ (exists info,
                  parsed_info = Some info
                  /\ Forall (fun key => dict_lookup key info <> None)
                            keys_read)
           /\ generated_at = now_isoformat
           /\ (exists prompt rest, l1 = LlmGenerate prompt :: rest)
           /\ (exists prompt, l3 = [CallSynthesizer; LlmGenerate prompt])
           /\ 1 <= List.length qs
       end.
Proof.
  assert (Early : forall e : string,
             e <> "" ->
             exists answer l1 qs l3,
               (Returns (Failure e), @nil event)
               = (Returns answer, (l1 ++ map WikiPage qs ++ l3)%list)
               /\ parser_calls l1 /\ List.length qs <= 4
               /\ synthesizer_calls l3
               /\ match answer with
                  | Failure e => e <> ""
                  | Success study_material parsed_info sources generated_at =>
                      (exists response_text,
                          study_material = Some response_text
                          /\ response_text <> "")
                      /\ (exists info,
                             parsed_info = Some info
                             /\ Forall (fun key => dict_lookup key info <> None)
                                       keys_read)
                      /\ generated_at = now_isoformat
                      /\ (exists prompt rest, l1 = LlmGenerate prompt :: rest)
                      /\ (exists prompt,
                             l3 = [CallSynthesizer; LlmGenerate prompt])
                      /\ 1 <= List.length qs
                  end).
  { intros e N. exists (Failure e), [], [], [].
    repeat split; [now left | simpl; lia | now left | exact N]. }
  pipeline_steps.
  destruct get_json as [data|e]; [|apply Early; discriminate].
  destruct data as [ | b | z | r | s | vs | body ];
    try (apply Early; discriminate).
  destruct (dict_lookup "prompt" body) as [prompt|]; pipeline_steps;
    [|apply Early; discriminate].
  destruct prompt as [ | b | z | r | raw | vs | d ];
    try (apply Early; discriminate).
  pipeline_steps.
  destruct (PyStr.is_empty (PyStr.strip raw)); [apply Early; discriminate|].
  destruct (parser_inv (PyStr.strip raw)) as (parsed & lp & R & LP & PR).
  rewrite R. pipeline_steps.
  set (l1 := LlmGenerate (parsing_prompt (PyStr.strip raw)) :: lp).
  assert (P1 : parser_calls l1).
  { right. exists (parsing_prompt (PyStr.strip raw)).
    destruct LP as [->| ->]; [now left | right; now eexists]. }
  assert (Mid : forall (e : string) (qs : list value),
             e <> "" -> List.length qs <= 4 ->
             exists answer l1' qs' l3,
               (Returns (Failure e), (l1 ++ map WikiPage qs)%list)
               = (Returns answer, (l1' ++ map WikiPage qs' ++ l3)%list)
               /\ parser_calls l1' /\ List.length qs' <= 4
               /\ synthesizer_calls l3
               /\ match answer with
                  | Failure e => e <> ""
                  | Success study_material parsed_info sources generated_at =>
                      (exists response_text,
                          study_material = Some response_text
                          /\ response_text <> "")
                      /\ (exists info,
                             parsed_info = Some info
                             /\ Forall (fun key => dict_lookup key info <> None)
                                       keys_read)
                      /\ generated_at = now_isoformat
                      /\ (exists prompt rest, l1' = LlmGenerate prompt :: rest)
                      /\ (exists prompt,
                             l3 = [CallSynthesizer; LlmGenerate prompt])
                      /\ 1 <= List.length qs'
                  end).
  { intros e qs N B. exists (Failure e), l1, qs, [].
    rewrite app_nil_r. repeat split; [exact P1 | exact B | now left | exact N]. }
  destruct PR as [[info ->]|(e & -> & ->)]; cbn [fst snd error_of].
  2:{ cbn [append PyStr.is_empty].
      rewrite <- (app_nil_r l1). apply (Mid _ []); [discriminate | simpl; lia]. }
  pipeline_steps.
  destruct (dict_lookup "keywords" info) as [keywords|] eqn:K1;
    pipeline_steps;
    [|rewrite <- (app_nil_r l1); apply (Mid _ []);
      [discriminate | simpl; lia]].
  destruct (dict_lookup "main_topic" info) as [main_topic|] eqn:K2;
    pipeline_steps;
    [|rewrite <- (app_nil_r l1); apply (Mid _ []);
      [discriminate | simpl; lia]].
  destruct (fetch_inv wiki keywords main_topic l1)
    as (qs & rest & fetched & F & E & _ & Q).
  rewrite F.
  assert (B : List.length qs <= 4).
  { pose proof (search_terms_at_most_four keywords main_topic) as B.
    rewrite E, length_app in B. lia. }
  destruct Q as [[-> C]|[[-> _]|[e ->]]];
    cbn [fst snd error_of append PyStr.is_empty];
    [| apply Mid; [discriminate | exact B]
     | apply Mid; [discriminate | exact B]].
  destruct (synthesizer_inv (Some info)
              (Some (flat_map (contexts_for wiki) qs)) (PyStr.strip raw)
              (l1 ++ map WikiPage qs)%list)
    as (generated & l3 & S & G).
  rewrite S.
  destruct G as [(response_text & prompt & info' & -> & N & -> & I & K3 & K4
                  & K5 & K6)
                |(err & -> & N & L3)];
    cbn [fst snd error_of].
  - injection I as <-. pipeline_steps.
    eexists. exists l1, qs, [CallSynthesizer; LlmGenerate prompt].
    split; [rewrite <- app_assoc; reflexivity|].
    repeat split; trivial.
    + right. right. now exists prompt.
    + now exists response_text.
    + exists info. split; [reflexivity|].
      unfold keys_read. repeat constructor; congruence.
    + now exists (parsing_prompt (PyStr.strip raw)), lp.
    + now exists prompt.
    + destruct qs; [simpl in C; lia | simpl; lia].
  - destruct err as [|c err]; [now destruct N|]. cbn [PyStr.is_empty].
    exists (Failure (String c err)), l1, qs, (CallSynthesizer :: l3).
    split; [rewrite <- app_assoc; reflexivity|].
    repeat split; trivial.
    right. destruct L3 as [->|[prompt ->]]; [now left | right; now exists prompt].
Qed.

(** X14: the synthesizer never raises.  It records its call and returns
    either the non-empty text of the model, after one call to it and with
    the four keys it reads present in the record, or a non-empty message
    after at most one call to the model.  The text it returns is the text
    of the response that the model gave to the one prompt it was sent, and
    that prompt is the template filled with the request, the four values
    read from the record, and the contexts. *)
Theorem synthesizer_outcomes
        (parsed_info : option dict)
        (wikipedia_contexts : option (list context))
        (original_prompt : string) :
  exists result l3,
    run (synthesize parsed_info wikipedia_contexts original_prompt)
    = (Returns result, CallSynthesizer :: l3)
    /\ ((exists response_text prompt info,
            result = (Some response_text, None)
            /\ response_text <> ""
            /\ l3 = [LlmGenerate prompt]
            /\ parsed_info = Some info
            /\ dict_lookup "main_topic" info <> None
            /\ dict_lookup "subject_domain" info <> None
            /\ dict_lookup "specific_focus" info <> None
            /\ dict_lookup "complexity_level" info <> None
            /\ exists contexts main_topic subject_domain specific_focus
                      complexity_level response,
                wikipedia_contexts = Some contexts
                /\ dict_lookup "main_topic" info = Some main_topic
                /\ dict_lookup "subject_domain" info = Some subject_domain
                /\ dict_lookup "specific_focus" info = Some specific_focus
                /\ dict_lookup "complexity_level" info
                   = Some complexity_level
                /\ prompt
                   = study_prompt original_prompt main_topic subject_domain
                                  specific_focus complexity_level contexts
                /\ generate_content prompt = Returns response
                /\ text response = Returns response_text)
        \/ (exists err,
               result = (None, Some err) /\ err <> ""
               /\ (l3 = [] \/ exists prompt, l3 = [LlmGenerate prompt]))).
Proof.
  destruct (synthesizer_inv parsed_info wikipedia_contexts original_prompt [])
    as (result & l3 & R & [S|F]).
  2:{ exists result, l3. split; [exact R | right; exact F]. }
  destruct S as (response_text & prompt & info & -> & N & -> & -> & K1 & K2
                 & K3 & K4).
  exists (Some response_text, None), [LlmGenerate prompt].
  split; [exact R|]. left. exists response_text, prompt, info.
  repeat (split; [trivial; fail|]).
  destruct wikipedia_contexts as [contexts|].
  2:{ cbv beta iota zeta
          delta [generate_comprehensive_study_material try_except bind emit
                 lift ret raise iterate] in R.
      discriminate. }
  destruct (synthesizer_success study_prompt generate_content
              _ _ _ _ _ _ R eq_refl)
    as (mt & sd & sf & cl & response & response_text'
        & L1 & L2 & L3 & L4 & G & T & _ & E & L).
  injection E as <-. cbn [app] in L. injection L as L.
  exists contexts, mt, sd, sf, cl, response.
  repeat split; trivial. now rewrite L.
Qed.

(** X15: when the record lacks one of the keys the synthesizer reads, it
    returns "Error generating study material: " followed by the first
    missing key in quotes, and the model is not called. *)
Theorem synthesizer_missing_key
        (info : dict) (contexts : list context) (original_prompt : string) :
  dict_lookup "main_topic" info = None
  \/ dict_lookup "subject_domain" info = None
  \/ dict_lookup "specific_focus" info = None
  \/ dict_lookup "complexity_level" info = None ->
  exists key,
    dict_lookup key info = None
    /\ run (synthesize (Some info) (Some contexts) original_prompt)
       = (Returns (None,
                   Some ("Error generating study material: " ++ squote key)),
          [CallSynthesizer]).
Proof.
  intros X. unfold run. synthesizer_steps.
  destruct (dict_lookup "main_topic" info) eqn:K1; synthesizer_steps;
    [|now exists "main_topic"].
  destruct (dict_lookup "subject_domain" info) eqn:K2; synthesizer_steps;
    [|now exists "subject_domain"].
  destruct (dict_lookup "specific_focus" info) eqn:K3; synthesizer_steps;
    [|now exists "specific_focus"].
  destruct (dict_lookup "complexity_level" info) eqn:K4; synthesizer_steps;
    [|now exists "complexity_level"].
  destruct X as [X|[X|[X|X]]]; discriminate.
Qed.

(** X16: the handler never raises: every request gets an answer, and a
    failure always carries a non-empty message. *)
Theorem handler_always_answers (get_json : outcome value) :
  exists answer l,
    run (handler get_json) = (Returns answer, l)
    /\ forall e, answer = Failure e -> e <> "".
Proof.
  destruct (handler_inv get_json) as (answer & l1 & qs & l3 & R & _ & _ & _ & A).
  exists answer, (l1 ++ map WikiPage qs ++ l3)%list. split; [exact R|].
  intros e ->. exact A.
Qed.

(** X17: one request calls the model at most twice, queries the
    encyclopedia at most four times, and calls the synthesizer and the
    fallback at most once each. *)
Theorem handler_call_budget (get_json : outcome value) :
  List.length (filter is_llm_call (snd (run (handler get_json)))) <= 2
  /\ List.length (queried (snd (run (handler get_json)))) <= 4
  /\ List.length (filter is_synthesizer_call (snd (run (handler get_json))))
     <= 1
  /\ List.length (filter is_fallback_call (snd (run (handler get_json)))) <= 1.
Proof.
  destruct (handler_inv get_json) as (answer & l1 & qs & l3 & R & P & B & S & _).
  rewrite R. cbn [snd].
  rewrite !filter_app, !queried_app, queried_wiki_pages, !length_app.
  rewrite !filter_wiki_pages by reflexivity.
  destruct P as [->|[p [->|[u ->]]]];
    destruct S as [->|[->|[p' ->]]]; simpl; lia.
Qed.

(** X18: the calls of a request come in stage order: those of the parser,
    then the queries, then those of the synthesizer. *)
Theorem handler_stage_order (get_json : outcome value) :
  exists l1 qs l3,
    snd (run (handler get_json)) = (l1 ++ map WikiPage qs ++ l3)%list
    /\ parser_calls l1
    /\ synthesizer_calls l3.
Proof.
  destruct (handler_inv get_json) as (answer & l1 & qs & l3 & R & P & _ & S & _).
  exists l1, qs, l3. rewrite R. now repeat split.
Qed.

(** X19: an answer with [success: true] carries the non-empty text of the
    model, a record in which the five keys the stages read are present, and
    the time stamp; it took exactly two calls to the model, one call to the
    synthesizer and at least one query.  The text is the text of the
    response the model gave to the study prompt, which is the template
    filled with the stripped prompt of the request, four values of the
    record in the answer, and the accepted contexts of the queried terms. *)
Theorem success_is_complete
        (get_json : outcome value) (study_material : option string)
        (parsed_info : option dict) (sources : list string)
        (generated_at : string) (l : log) :
  run (handler get_json)
  = (Returns (Success study_material parsed_info sources generated_at), l) ->
  (exists response_text,
      study_material = Some response_text /\ response_text <> "")
  /\ (exists info,
         parsed_info = Some info
         /\ Forall (fun key => dict_lookup key info <> None) keys_read)
  /\ generated_at = now_isoformat
  /\ List.length (filter is_llm_call l) = 2
  /\ List.length (filter is_synthesizer_call l) = 1
  /\ 1 <= List.length (queried l)
  /\ exists body raw info main_topic subject_domain specific_focus
            complexity_level response response_text before,
      get_json = Returns (VDict body)
      /\ dict_lookup "prompt" body = Some (VStr raw)
      /\ parsed_info = Some info
      /\ dict_lookup "main_topic" info = Some main_topic
      /\ dict_lookup "subject_domain" info = Some subject_domain
      /\ dict_lookup "specific_focus" info = Some specific_focus
      /\ dict_lookup "complexity_level" info = Some complexity_level
      /\ generate_content
           (study_prompt (PyStr.strip raw) main_topic subject_domain
                         specific_focus complexity_level
                         (flat_map (contexts_for wiki) (queried l)))
         = Returns response
      /\ text response = Returns response_text
      /\ study_material = Some response_text
      /\ l = (before
               ++ [CallSynthesizer;
                   LlmGenerate
                     (study_prompt (PyStr.strip raw) main_topic subject_domain
                                   specific_focus complexity_level
                                   (flat_map (contexts_for wiki)
                                             (queried l)))])%list.
Proof.
  intros H.
  pose proof (success_inv parsing_prompt study_prompt generate_content wiki
                json_loads now_isoformat _ _ _ _ _ _ H) as SI.
  assert (Counted :
            (exists response_text,
                study_material = Some response_text /\ response_text <> "")
            /\ (exists info,
                   parsed_info = Some info
                   /\ Forall (fun key => dict_lookup key info <> None)
                             keys_read)
            /\ generated_at = now_isoformat
            /\ List.length (filter is_llm_call l) = 2
            /\ List.length (filter is_synthesizer_call l) = 1
            /\ 1 <= List.length (queried l)).
  { destruct (handler_inv get_json)
      as (answer & l1 & qs & l3 & R & P & B & S & A).
    rewrite R in H. injection H as -> <-.
    destruct A as (T & I & G & (p & rest & L1) & (p' & L3) & Q).
    repeat split; trivial; subst l3;
      rewrite ?filter_app, ?queried_app, ?queried_wiki_pages, ?length_app;
      rewrite ?filter_wiki_pages by reflexivity;
      destruct P as [->|[p0 [->|[u ->]]]]; try discriminate; simpl; lia. }
  destruct Counted as (C1 & C2 & C3 & C4 & C5 & C6).
  repeat (split; [assumption|]).
  destruct SI as (body & raw & info & perr & l0 & keywords & main_topic & qs
                  & sd & sf & cl & response & response_text
                  & J & P & _ & Q0 & I & _ & M & _ & _ & _ & K2 & K3 & K4
                  & G & T & _ & SM & _ & L).
  assert (Q : queried l = qs).
  { rewrite L, !queried_app, Q0, queried_wiki_pages. cbn. apply app_nil_r. }
  rewrite Q.
  exists body, raw, info, main_topic, sd, sf, cl, response, response_text,
         (l0 ++ map WikiPage qs)%list.
  repeat split; trivial. now rewrite <- app_assoc.
Qed.

(** X20: when the call to the model raises during parsing, the handler
    answers with the parser's message, and neither the encyclopedia nor
    the synthesizer is called. *)
Theorem handler_parse_failure (body : dict) (raw e : string) :
  dict_lookup "prompt" body = Some (VStr raw) ->
  PyStr.strip raw <> "" ->
  generate_content (parsing_prompt (PyStr.strip raw)) = Raises e ->
  run (handler (Returns (VDict body)))
  = (Returns (Failure ("Error parsing request: " ++ e)),
     [LlmGenerate (parsing_prompt (PyStr.strip raw))]).
Proof.
  intros P N G. apply is_empty_false in N.
  pipeline_steps. rewrite P. pipeline_steps. rewrite N.
  unfold parse_learning_request, try_except, bind, emit, lift, ret.
  cbn [app]. rewrite G. reflexivity.
Qed.

(** X21: a request whose body cannot be read, is not an object, or holds a
    prompt that is not a string is answered with "Server error: " and the
    message of the exception, and nothing is called. *)
Theorem handler_rejects_malformed (get_json : outcome value) (msg : string) :
  malformed get_json msg ->
  run (handler get_json) = (Returns (Failure ("Server error: " ++ msg)), []).
Proof.
  intros [e | data N | body prompt P N]; pipeline_steps.
  - reflexivity.
  - destruct data; try reflexivity. now destruct (N d).
  - rewrite P. pipeline_steps.
    destruct prompt; try reflexivity. now destruct (N s).
Qed.

(** X22: a request object without a [prompt] key is treated as an empty
    prompt: it gets the validation error, and nothing is called. *)
Theorem handler_missing_prompt (body : dict) :
  dict_lookup "prompt" body = None ->
  run (handler (Returns (VDict body)))
  = (Returns (Failure "Please provide a learning prompt"), []).
Proof.
  intros P. pipeline_steps. rewrite P. reflexivity.
Qed.

Lemma queried_synthesizer_calls (l : log) :
  synthesizer_calls l -> queried l = [].
Proof. intros [->|[->|[p ->]]]; reflexivity. Qed.

(** X23: when the response of the model has no braced part, the handler
    searches with the fallback record: the terms it queries start with the
    fallback topic and go on, in order, through the first three words of
    the lower-cased prompt. *)
Theorem fallback_drives_search
        (body : dict) (raw : string) (response : llm_response)
        (response_text : string) :
  dict_lookup "prompt" body = Some (VStr raw) ->
  PyStr.strip raw <> "" ->
  generate_content (parsing_prompt (PyStr.strip raw)) = Returns response ->
  text response = Returns response_text ->
  re_search_braces response_text = None ->
  exists later rest,
    queried (snd (run (handler (Returns (VDict body)))))
    = VStr (main_topic_of (PyStr.strip raw)) :: later
    /\ map VStr (firstn 3 (PyStr.split (PyStr.lower (PyStr.strip raw))))
       = (later ++ rest)%list.
Proof.
  intros P N G T R. apply is_empty_false in N.
  pipeline_steps. rewrite P. pipeline_steps. rewrite N.
  unfold parse_learning_request, try_except, bind, emit, lift, ret.
  cbn [app]. rewrite G, T, R. cbn [app fst snd error_of].
  set (user_prompt := PyStr.strip raw).
  set (l1 := [LlmGenerate (parsing_prompt user_prompt);
              CallFallback user_prompt]).
  change (dict_lookup "keywords" (fallback_parse user_prompt))
    with (Some (VList (map VStr (keywords_of user_prompt)))).
  change (dict_lookup "main_topic" (fallback_parse user_prompt))
    with (Some (VStr (main_topic_of user_prompt))).
  cbv beta iota.
  destruct (fetch_loop_step wiki (VStr (main_topic_of user_prompt))
              (firstn 3 (map VStr (keywords_of user_prompt))) [] l1)
    as [[e S]|S]; [simpl; lia | |].
  - exists [], (map VStr (firstn 3 (PyStr.split (PyStr.lower user_prompt)))).
    cbv beta iota zeta
        delta [fetch_wikipedia_context try_except bind slice3 list_plus ret].
    rewrite S.
    cbn [fst snd error_of append PyStr.is_empty]. split; reflexivity.
  - destruct (fetch_loop wiki (firstn 3 (map VStr (keywords_of user_prompt)))
                ([] ++ contexts_for wiki (VStr (main_topic_of user_prompt)))%list
                (l1 ++ [WikiPage (VStr (main_topic_of user_prompt))])%list)
      as [o l'] eqn:L.
    pose proof L as L'. apply fetch_loop_inv in L'.
    2:{ pose proof (contexts_for_length wiki (VStr (main_topic_of user_prompt))).
        simpl. lia. }
    destruct L' as (qs & rest & E1 & E2 & _ & _).
    exists qs, rest. split.
    2:{ rewrite <- E1. unfold keywords_of.
        rewrite firstn_map, firstn_firstn. reflexivity. }
    cbv beta iota zeta
        delta [fetch_wikipedia_context try_except bind slice3 list_plus ret].
    rewrite S.
    assert (Q : queried l' = VStr (main_topic_of user_prompt) :: qs).
    { rewrite E2, !queried_app, queried_wiki_pages. reflexivity. }
    destruct o as [[|c cs]|e]; cbn [fst snd error_of append PyStr.is_empty];
      try exact Q.
    destruct (synthesizer_inv (Some (fallback_parse user_prompt))
                (Some (c :: cs)) user_prompt l')
      as (generated & l3 & Y & Z).
    rewrite Y.
    assert (Q' : queried (l' ++ CallSynthesizer :: l3)%list
                 = VStr (main_topic_of user_prompt) :: qs).
    { rewrite queried_app, Q. cbn [queried].
      destruct Z as [(t & p & i & _ & _ & -> & _)|(err & _ & _ & [->|[p ->]])];
        cbn [queried]; now rewrite app_nil_r. }
    destruct (error_of (snd generated)); cbn [snd]; exact Q'.
Qed.

End PipelineFacts.

Lemma synthesizer_missing_key_witness :
  exists key,
    dict_lookup key [("main_topic", VStr "mitosis")] = None
    /\ run (generate_comprehensive_study_material Mock.study_prompt
              (Mock.llm_says "A study guide.")
              (Some [("main_topic", VStr "mitosis")]) (Some [])
              "learn about mitosis")
       = (Returns (None,
                   Some ("Error generating study material: " ++ squote key)),
          [CallSynthesizer]).
Proof.
  apply (synthesizer_missing_key Mock.study_prompt
           (Mock.llm_says "A study guide.") [("main_topic", VStr "mitosis")]
           [] "learn about mitosis").
  right. left. reflexivity.
Defined.

Lemma mitosis_run :
  run (generate_study_material Mock.parsing_prompt Mock.study_prompt
         (Mock.llm_says "Sure. {mitosis}") (Mock.wiki_sized 120)
         Mock.json_loads "2025-01-01T00:00:00"
         (Mock.body_with_prompt "learn about mitosis"))
  = (Returns (Success (Some "Sure. {mitosis}") (Some Mock.mitosis_info)
                      ["mitosis"; "mitosis"] "2025-01-01T00:00:00"),
     [LlmGenerate (Mock.parsing_prompt "learn about mitosis");
      WikiPage (VStr "mitosis"); WikiPage (VStr "mitosis");
      CallSynthesizer;
      LlmGenerate (Mock.study_prompt "learn about mitosis"
                     (VStr "mitosis") (VStr "Biology")
                     (VStr "cell division") (VStr "beginner") [])]).
Proof. vm_compute. reflexivity. Qed.

(** The calls of the run that answers "learn about mitosis". *)
Definition mitosis_log : log :=
  [LlmGenerate (Mock.parsing_prompt "learn about mitosis");
   WikiPage (VStr "mitosis"); WikiPage (VStr "mitosis");
   CallSynthesizer;
   LlmGenerate (Mock.study_prompt "learn about mitosis"
                  (VStr "mitosis") (VStr "Biology")
                  (VStr "cell division") (VStr "beginner") [])].

Lemma success_is_complete_witness :
  (exists response_text,
      Some "Sure. {mitosis}" = Some response_text /\ response_text <> "")
  /\ (exists info,
         Some Mock.mitosis_info = Some info
         /\ Forall (fun key => dict_lookup key info <> None) keys_read)
  /\ "2025-01-01T00:00:00" = "2025-01-01T00:00:00"
  /\ List.length (filter is_llm_call mitosis_log) = 2
  /\ List.length (filter is_synthesizer_call mitosis_log) = 1
  /\ 1 <= List.length (queried mitosis_log)
  /\ exists body raw info main_topic subject_domain specific_focus
            complexity_level response response_text before,
      Mock.body_with_prompt "learn about mitosis" = Returns (VDict body)
      /\ dict_lookup "prompt" body = Some (VStr raw)
      /\ Some Mock.mitosis_info = Some info
      /\ dict_lookup "main_topic" info = Some main_topic
      /\ dict_lookup "subject_domain" info = Some subject_domain
      /\ dict_lookup "specific_focus" info = Some specific_focus
      /\ dict_lookup "complexity_level" info = Some complexity_level
      /\ Mock.llm_says "Sure. {mitosis}"
           (Mock.study_prompt (PyStr.strip raw) main_topic subject_domain
              specific_focus complexity_level
              (flat_map (contexts_for (Mock.wiki_sized 120))
                        (queried mitosis_log)))
         = Returns response
      /\ text response = Returns response_text
      /\ Some "Sure. {mitosis}" = Some response_text
      /\ mitosis_log
         = (before
            ++ [CallSynthesizer;
                LlmGenerate
                  (Mock.study_prompt (PyStr.strip raw) main_topic
                     subject_domain specific_focus complexity_level
                     (flat_map (contexts_for (Mock.wiki_sized 120))
                               (queried mitosis_log)))])%list.
Proof.
  exact (success_is_complete Mock.parsing_prompt Mock.study_prompt
           (Mock.llm_says "Sure. {mitosis}") (Mock.wiki_sized 120)
           Mock.json_loads "2025-01-01T00:00:00"
           (Mock.body_with_prompt "learn about mitosis")
           (Some "Sure. {mitosis}") (Some Mock.mitosis_info)
           ["mitosis"; "mitosis"] "2025-01-01T00:00:00" mitosis_log
           mitosis_run).
Defined.

Lemma handler_parse_failure_witness :
  run (generate_study_material Mock.parsing_prompt Mock.study_prompt
         Mock.llm_down (Mock.wiki_sized 120) Mock.json_loads
         "2025-01-01T00:00:00" (Returns (VDict [("prompt", VStr " cells ")])))
  = (Returns (Failure ("Error parsing request: " ++ "503 Service Unavailable")),
     [LlmGenerate (Mock.parsing_prompt (PyStr.strip " cells "))]).
Proof.
  apply (handler_parse_failure Mock.parsing_prompt Mock.study_prompt
           Mock.llm_down (Mock.wiki_sized 120) Mock.json_loads
           "2025-01-01T00:00:00" [("prompt", VStr " cells ")] " cells "
           "503 Service Unavailable").
  - reflexivity.
  - vm_compute. discriminate.
  - reflexivity.
Defined.

Lemma handler_rejects_malformed_witness :
  run (generate_study_material Mock.parsing_prompt Mock.study_prompt
         Mock.llm_down (Mock.wiki_sized 120) Mock.json_loads
         "2025-01-01T00:00:00" (Returns (VList [VStr "learn about cells"])))
  = (Returns (Failure ("Server error: "
                       ++ no_attribute (VList [VStr "learn about cells"])
                            "get")), []).
Proof.
  apply (handler_rejects_malformed Mock.parsing_prompt Mock.study_prompt
           Mock.llm_down (Mock.wiki_sized 120) Mock.json_loads
           "2025-01-01T00:00:00" (Returns (VList [VStr "learn about cells"]))).
  apply body_not_object. intros d. discriminate.
Defined.

Example list_body_message :
  no_attribute (VList [VStr "learn about cells"]) "get"
  = "'list' object has no attribute 'get'".
Proof. reflexivity. Qed.

Lemma handler_missing_prompt_witness :
  run (generate_study_material Mock.parsing_prompt Mock.study_prompt
         Mock.llm_down (Mock.wiki_sized 120) Mock.json_loads
         "2025-01-01T00:00:00" (Returns (VDict [("topic", VStr "cells")])))
  = (Returns (Failure "Please provide a learning prompt"), []).
Proof.
  apply (handler_missing_prompt Mock.parsing_prompt Mock.study_prompt
           Mock.llm_down (Mock.wiki_sized 120) Mock.json_loads
           "2025-01-01T00:00:00" [("topic", VStr "cells")]).
  reflexivity.
Defined.

Lemma fallback_drives_search_witness :
  exists later rest,
    queried
      (snd (run (generate_study_material Mock.parsing_prompt Mock.study_prompt
                   (Mock.llm_says "I cannot help with that.")
                   (Mock.wiki_sized 120) Mock.json_loads "2025-01-01T00:00:00"
                   (Returns (VDict [("prompt",
                                     VStr "teach me about Black Holes")])))))
    = VStr (main_topic_of (PyStr.strip "teach me about Black Holes")) :: later
    /\ map VStr
         (firstn 3 (PyStr.split
                      (PyStr.lower (PyStr.strip "teach me about Black Holes"))))
       = (later ++ rest)%list.
Proof.
  apply (fallback_drives_search Mock.parsing_prompt Mock.study_prompt
           (Mock.llm_says "I cannot help with that.") (Mock.wiki_sized 120)
           Mock.json_loads "2025-01-01T00:00:00"
           [("prompt", VStr "teach me about Black Holes")]
           "teach me about Black Holes"
           {| text := Returns "I cannot help with that." |}
           "I cannot help with that.").
  - reflexivity.
  - vm_compute. discriminate.
  - reflexivity.
  - reflexivity.
  - reflexivity.
Defined.

Example fallback_search_terms :
  queried
    (snd (run (generate_study_material Mock.parsing_prompt Mock.study_prompt
                 (Mock.llm_says "I cannot help with that.")
                 (Mock.wiki_sized 120) Mock.json_loads "2025-01-01T00:00:00"
                 (Returns (VDict [("prompt",
                                   VStr "teach me about Black Holes")])))))
  = [VStr "Black Holes"; VStr "teach"].
Proof. vm_compute. reflexivity. Qed.
